(** * pytest-qt: the Qt binding selector [pytestqt/qt_compat.py]

    A shallow embedding of the class [_QtApi] (methods [set_qt_api] and
    [get_versions]) and the properties of its backend resolution, module
    loading, facade construction and version reporting.

    Modelling conventions
    - Python [str] values are byte strings ([string]); [str.lower] maps the
      ASCII capitals to small letters and leaves every other byte alone.
    - [os.environ] and the literal dict [_root_modules] are finite maps.
    - The instance [self] is its attribute dictionary: a finite map from
      attribute names to values.  An attribute that was never assigned has
      no entry; an attribute assigned [None] has the entry [VNone].
    - The interpreter's surroundings are a [world]: the environment
      variables, the importable modules with their attribute tables, the
      results of the nullary calls the code makes, and whether
      [sip.setapi] accepts a request.
    - Methods run in a monad that threads [self], appends the import and
      [sip.setapi] requests they make to a trace, and may raise. *)

From Stdlib Require Import ZArith Ascii.
From stdpp Require Import gmap strings list fin_maps.

Open Scope string_scope.
Open Scope list_scope.

(** ** Python values, exceptions and observable events *)

Inductive value : Type :=
  | VNone
  | VStr (s : string)
  | VModule (dotted : string)
  | VObj (qualname : string).

#[global] Instance value_eq_dec : EqDecision value.
Proof. solve_decision. Defined.

Inductive exn : Type :=
  | RuntimeError (msg : string)
  | KeyError (key : string)
  | ImportError (name : string)
  | AttributeError (attr : string)
  | ValueError (what : string)
  | TypeError (what : string).

#[global] Instance exn_eq_dec : EqDecision exn.
Proof. solve_decision. Defined.

(** [EvImport name fromlist] is a request [__import__(name, ..., fromlist)]
    (also the statements [import sip] and [import PySide]);
    [EvSetApi name version] is a call [sip.setapi(name, version)]. *)
Inductive event : Type :=
  | EvImport (name : string) (fromlist : list string)
  | EvSetApi (name : string) (version : Z).

#[global] Instance event_eq_dec : EqDecision event.
Proof. solve_decision. Defined.

Record world : Type := World {
  environ : gmap string string;
  modules : gmap string (gmap string value);
  calls : gmap string value;
  sip_accepts : string -> Z -> bool
}.

Record VersionTuple : Type := mkVersionTuple {
  qt_api : value;
  qt_api_version : value;
  runtime : value;
  compiled : value
}.

(** ** The method monad: state [self], trace of events, exceptions *)

Inductive result (A : Type) : Type :=
  | Ok (a : A)
  | Raise (e : exn).
Arguments Ok {A} a.
Arguments Raise {A} e.

Record outcome (A : Type) : Type := Outcome {
  out_self : gmap string value;
  out_trace : list event;
  out_result : result A
}.
Arguments Outcome {A} _ _ _.
Arguments out_self {A} _.
Arguments out_trace {A} _.
Arguments out_result {A} _.

Definition M (A : Type) : Type := gmap string value -> outcome A.

Definition ret {A : Type} (a : A) : M A :=
  fun self => Outcome self [] (Ok a).

Definition raise {A : Type} (e : exn) : M A :=
  fun self => Outcome self [] (Raise e).

Definition bind {A B : Type} (m : M A) (f : A -> M B) : M B :=
  fun self =>
    let o := m self in
    match out_result o with
    | Ok a =>
        let o' := f a (out_self o) in
        Outcome (out_self o') (out_trace o ++ out_trace o') (out_result o')
    | Raise e => Outcome (out_self o) (out_trace o) (Raise e)
    end.

#[global] Instance M_ret : MRet M := @ret.
#[global] Instance M_bind : MBind M := fun A B f m => bind m f.

(** [try: m except ImportError: h] *)
Definition except_ImportError {A : Type} (m : M A) (h : M A) : M A :=
  fun self =>
    let o := m self in
    match out_result o with
    | Raise (ImportError _) =>
        let o' := h (out_self o) in
        Outcome (out_self o') (out_trace o ++ out_trace o') (out_result o')
    | _ => o
    end.

Definition emit (e : event) : M unit :=
  fun self => Outcome self [e] (Ok tt).

(** [self.name = v] *)
Definition setattr_self (name : string) (v : value) : M unit :=
  fun self => Outcome (<[name := v]> self) [] (Ok tt).

(** [self.name] *)
Definition getattr_self (name : string) : M value :=
  fun self =>
    match self !! name with
    | Some v => Outcome self [] (Ok v)
    | None => Outcome self [] (Raise (AttributeError name))
    end.

(** ** Primitives of the interpreter *)

(** The attribute [v.attr]; only modules carry attributes here, and the
    attribute table of a package lists the submodules that the import
    machinery binds on it. *)
Definition attr_of (w : world) (v : value) (attr : string) : option value :=
  match v with
  | VModule n => modules w !! n ≫= (fun tbl => tbl !! attr)
  | _ => None
  end.

Definition getattr (w : world) (v : value) (attr : string) : M value :=
  match attr_of w v attr with
  | Some x => ret x
  | None => raise (AttributeError attr)
  end.

(** [f()] for a nullary callable of the backend. *)
Definition result_of_call (w : world) (f : value) : option value :=
  match f with
  | VObj n => calls w !! n
  | _ => None
  end.

Definition call (w : world) (f : value) : M value :=
  match result_of_call w f with
  | Some r => ret r
  | None => raise (TypeError "object is not callable")
  end.

Definition importable (w : world) (name : string) : bool :=
  bool_decide (is_Some (modules w !! name)).

(** [__import__(name, globals(), locals(), fromlist, 0)]: the top-level
    package is returned. *)
Definition __import__ (w : world) (name : string) (fromlist : list string)
  : M value :=
  emit (EvImport name fromlist) ;;
  if importable w name then ret (VModule name) else raise (ImportError name).

(** [sip.setapi(name, version)] *)
Definition sip_setapi (w : world) (name : string) (version : Z) : M unit :=
  emit (EvSetApi name version) ;;
  if sip_accepts w name version then ret tt else raise (ValueError name).

(** [d[key]] on a dict of strings *)
Definition getitem (d : gmap string string) (key : string) : M string :=
  match d !! key with
  | Some v => ret v
  | None => raise (KeyError key)
  end.

(** [str.lower] *)
Definition ascii_lower (c : ascii) : ascii :=
  let n := nat_of_ascii c in
  if (65 <=? n)%nat && (n <=? 90)%nat then ascii_of_nat (n + 32) else c.

Fixpoint lower (s : string) : string :=
  match s with
  | EmptyString => EmptyString
  | String c s' => String (ascii_lower c) (lower s')
  end.

(** Truth value of the argument [qt_api], which is [None] or a [str]. *)
Definition truthy (q : option string) : bool :=
  match q with
  | None => false
  | Some s => negb (bool_decide (s = EmptyString))
  end.

(** ** [_QtApi.set_qt_api] *)

(** lines 31-36 *)
Definition _try_import (w : world) (name : string) : M bool :=
  except_ImportError (__import__ w name [] ;; ret true) (ret false).

(** lines 38-47 *)
Definition _guess_qt_api (w : world) : M string :=
  b ← _try_import w "PySide";
  if b : bool then ret "pyside" else
  b ← _try_import w "PyQt4";
  if b : bool then ret "pyqt4" else
  b ← _try_import w "PyQt5";
  if b : bool then ret "pyqt5" else
  let msg := "pytest-qt requires either PySide, PyQt4 or PyQt5 to be installed" in
  raise (RuntimeError msg).

Definition known_apis : list string := ["pyside"; "pyqt4"; "pyqt4v2"; "pyqt5"].

(** lines 49-60: the value bound to the local [qt_api] at line 62 *)
Definition resolve_qt_api (w : world) (qt_api : option string) : M string :=
  if bool_decide (default "false" (environ w !! "PYTEST_QT_FORCE_PYQT") = "true")
  then ret "pyqt4"
  else if negb (truthy qt_api) then
    match environ w !! "PYTEST_QT_API" with
    | Some v =>
        let qt_api := lower v in
        if negb (bool_decide (qt_api ∈ known_apis)) then
          let msg := "Invalid value for $PYTEST_QT_API: " in
          raise (RuntimeError (msg +:+ qt_api))
        else ret qt_api
    | None => _guess_qt_api w
    end
  else ret (default EmptyString qt_api).

(** lines 68-73 *)
Definition _root_modules : gmap string string :=
  <["pyside" := "PySide"]> (<["pyqt4" := "PyQt4"]>
  (<["pyqt4v2" := "PyQt4"]> (<["pyqt5" := "PyQt5"]> ∅))).

(** lines 64-66 *)
Definition _import_module (w : world) (_root_module module_name : string)
  : M value :=
  m ← __import__ w _root_module [module_name];
  getattr w m module_name.

(** [self.name = src.attr] *)
Definition bind_attr (w : world) (name : string) (src : value) (attr : string)
  : M unit :=
  v ← getattr w src attr;
  setattr_self name v.

Definition set_qt_api (w : world) (qt_api : option string) : M unit :=
  qt_api ← resolve_qt_api w qt_api;
  setattr_self "pytest_qt_api" (VStr qt_api) ;;
  _root_module ← getitem _root_modules qt_api;
  (if bool_decide (qt_api = "pyqt4v2") then
     __import__ w "sip" [] ;;
     sip_setapi w "QDate" 2 ;;
     sip_setapi w "QDateTime" 2 ;;
     sip_setapi w "QString" 2 ;;
     sip_setapi w "QTextStream" 2 ;;
     sip_setapi w "QTime" 2 ;;
     sip_setapi w "QUrl" 2 ;;
     sip_setapi w "QVariant" 2
   else ret tt) ;;
  QtCore ← _import_module w _root_module "QtCore";
  setattr_self "QtCore" QtCore ;;
  QtGui ← _import_module w _root_module "QtGui";
  setattr_self "QtGui" QtGui ;;
  QtTest ← _import_module w _root_module "QtTest";
  setattr_self "QtTest" QtTest ;;
  bind_attr w "Qt" QtCore "Qt" ;;
  bind_attr w "QEvent" QtCore "QEvent" ;;
  bind_attr w "qDebug" QtCore "qDebug" ;;
  bind_attr w "qWarning" QtCore "qWarning" ;;
  bind_attr w "qCritical" QtCore "qCritical" ;;
  bind_attr w "qFatal" QtCore "qFatal" ;;
  bind_attr w "QtDebugMsg" QtCore "QtDebugMsg" ;;
  bind_attr w "QtWarningMsg" QtCore "QtWarningMsg" ;;
  bind_attr w "QtCriticalMsg" QtCore "QtCriticalMsg" ;;
  bind_attr w "QtFatalMsg" QtCore "QtFatalMsg" ;;
  setattr_self "qInstallMsgHandler" VNone ;;
  setattr_self "qInstallMessageHandler" VNone ;;
  if bool_decide (qt_api = "pyside") then
    bind_attr w "Signal" QtCore "Signal" ;;
    bind_attr w "Slot" QtCore "Slot" ;;
    bind_attr w "Property" QtCore "Property" ;;
    bind_attr w "QApplication" QtGui "QApplication" ;;
    bind_attr w "QWidget" QtGui "QWidget" ;;
    bind_attr w "qInstallMsgHandler" QtCore "qInstallMsgHandler"
  else if bool_decide (qt_api ∈ ["pyqt4"; "pyqt4v2"; "pyqt5"]) then
    bind_attr w "Signal" QtCore "pyqtSignal" ;;
    bind_attr w "Slot" QtCore "pyqtSlot" ;;
    bind_attr w "Property" QtCore "pyqtProperty" ;;
    if bool_decide (qt_api = "pyqt5") then
      _QtWidgets ← _import_module w _root_module "QtWidgets";
      bind_attr w "QApplication" _QtWidgets "QApplication" ;;
      bind_attr w "QWidget" _QtWidgets "QWidget" ;;
      bind_attr w "qInstallMessageHandler" QtCore "qInstallMessageHandler"
    else
      bind_attr w "QApplication" QtGui "QApplication" ;;
      bind_attr w "QWidget" QtGui "QWidget" ;;
      bind_attr w "qInstallMsgHandler" QtCore "qInstallMsgHandler"
  else ret tt.

(** ** [_QtApi.USING_PYSIDE] and [_QtApi.get_versions] *)

(** lines 24-27 *)
Definition USING_PYSIDE : M bool :=
  api ← getattr_self "pytest_qt_api";
  ret (bool_decide (api = VStr "pyside")).

(** lines 131-139; the arguments of [VersionTuple] are evaluated from left
    to right. *)
Definition get_versions (w : world) : M VersionTuple :=
  api ← getattr_self "pytest_qt_api";
  if bool_decide (api = VStr "pyside") then
    PySide ← __import__ w "PySide" [];
    version ← getattr w PySide "__version__";
    QtCore ← getattr_self "QtCore";
    qVersion ← getattr w QtCore "qVersion";
    rt ← call w qVersion;
    QtCore ← getattr_self "QtCore";
    core_version ← getattr w QtCore "__version__";
    ret (mkVersionTuple (VStr "PySide") version rt core_version)
  else
    api ← getattr_self "pytest_qt_api";
    let qt_api_name := if bool_decide (api = VStr "pyqt5") then "PyQt5" else "PyQt4" in
    QtCore ← getattr_self "QtCore";
    pyqt_version ← getattr w QtCore "PYQT_VERSION_STR";
    QtCore ← getattr_self "QtCore";
    qVersion ← getattr w QtCore "qVersion";
    rt ← call w qVersion;
    QtCore ← getattr_self "QtCore";
    qt_version ← getattr w QtCore "QT_VERSION_STR";
    ret (mkVersionTuple (VStr qt_api_name) pyqt_version rt qt_version).

(** ** A machine with every binding installed

    Used to run the methods on concrete inputs.  Each backend object is
    named by its dotted path. *)

Definition symbols (prefix : string) (names : list string)
  : gmap string value :=
  list_to_map ((fun n => (n, VObj (prefix +:+ "." +:+ n))) <$> names).

Definition common_core : list string :=
  ["Qt"; "QEvent"; "qDebug"; "qWarning"; "qCritical"; "qFatal";
   "QtDebugMsg"; "QtWarningMsg"; "QtCriticalMsg"; "QtFatalMsg"; "qVersion"].

Definition package (root : string) (subs : list string)
  (extra : gmap string value) : gmap string value :=
  list_to_map ((fun n => (n, VModule (root +:+ "." +:+ n))) <$> subs) ∪ extra.

Definition demo_modules : gmap string (gmap string value) :=
  list_to_map
    [ ("PySide",
        package "PySide" ["QtCore"; "QtGui"; "QtTest"]
          {[ "__version__" := VStr "1.2.4" ]});
      ("PySide.QtCore",
        symbols "PySide.QtCore"
          (common_core ++ ["Signal"; "Slot"; "Property"; "qInstallMsgHandler"])
        ∪ {[ "__version__" := VStr "4.8.7" ]});
      ("PySide.QtGui", symbols "PySide.QtGui" ["QApplication"; "QWidget"]);
      ("PySide.QtTest", symbols "PySide.QtTest" ["QTest"]);
      ("PyQt4", package "PyQt4" ["QtCore"; "QtGui"; "QtTest"] ∅);
      ("PyQt4.QtCore",
        symbols "PyQt4.QtCore"
          (common_core ++
           ["pyqtSignal"; "pyqtSlot"; "pyqtProperty"; "qInstallMsgHandler"])
        ∪ {[ "PYQT_VERSION_STR" := VStr "4.11.4" ]}
        ∪ {[ "QT_VERSION_STR" := VStr "4.8.7" ]});
      ("PyQt4.QtGui", symbols "PyQt4.QtGui" ["QApplication"; "QWidget"]);
      ("PyQt4.QtTest", symbols "PyQt4.QtTest" ["QTest"]);
      ("PyQt5", package "PyQt5" ["QtCore"; "QtGui"; "QtTest"; "QtWidgets"] ∅);
      ("PyQt5.QtCore",
        symbols "PyQt5.QtCore"
          (common_core ++
           ["pyqtSignal"; "pyqtSlot"; "pyqtProperty"; "qInstallMessageHandler"])
        ∪ {[ "PYQT_VERSION_STR" := VStr "5.5.1" ]}
        ∪ {[ "QT_VERSION_STR" := VStr "5.5.1" ]});
      ("PyQt5.QtGui", symbols "PyQt5.QtGui" ["QGuiApplication"]);
      ("PyQt5.QtTest", symbols "PyQt5.QtTest" ["QTest"]);
      ("PyQt5.QtWidgets", symbols "PyQt5.QtWidgets" ["QApplication"; "QWidget"]);
      ("sip", symbols "sip" ["setapi"]) ].

Definition demo_calls : gmap string value :=
  list_to_map
    [ ("PySide.QtCore.qVersion", VStr "4.8.7");
      ("PyQt4.QtCore.qVersion", VStr "4.8.7");
      ("PyQt5.QtCore.qVersion", VStr "5.5.1") ].

Definition demo_world (env : list (string * string)) : world :=
  World (list_to_map env) demo_modules demo_calls (fun _ _ => true).

(** ** Vocabulary of the specification *)

(** The error of line 58, raised for an unknown [$PYTEST_QT_API]. *)
Definition ConfigurationError (v : string) : exn :=
  RuntimeError ("Invalid value for $PYTEST_QT_API: " +:+ v).

(** The error of line 47, raised when no binding can be imported. *)
Definition NoBackendFoundError : exn :=
  RuntimeError "pytest-qt requires either PySide, PyQt4 or PyQt5 to be installed".

(** The legacy force flag carries its truthy value. *)
Definition force_flag_set (w : world) : Prop :=
  environ w !! "PYTEST_QT_FORCE_PYQT" = Some "true".

(** The same machine with the legacy force flag removed. *)
Definition unset_force_flag (w : world) : world :=
  World (delete "PYTEST_QT_FORCE_PYQT" (environ w))
        (modules w) (calls w) (sip_accepts w).

(** Auto-detection as the specification words it: a fixed priority list
    of (root package, discriminant), the first detectable one wins. *)
Definition candidates : list (string * string) :=
  [("PySide", "pyside"); ("PyQt4", "pyqt4"); ("PyQt5", "pyqt5")].

Definition first_detectable (w : world) : option (string * string) :=
  List.find (fun c => importable w c.1) candidates.

(** The probes made along a priority list, stopping at the first hit. *)
Fixpoint probe_trace (w : world) (cs : list (string * string)) : list event :=
  match cs with
  | [] => []
  | c :: cs' =>
      EvImport c.1 [] :: (if importable w c.1 then [] else probe_trace w cs')
  end.

Definition is_setapi (e : event) : bool :=
  match e with
  | EvSetApi _ _ => true
  | EvImport _ _ => false
  end.

Definition is_core_import (e : event) : bool :=
  match e with
  | EvImport _ fromlist => bool_decide (fromlist = ["QtCore"])
  | EvSetApi _ _ => false
  end.

(** The calls of lines 80-86, in order. *)
Definition v2_api_calls : list event :=
  [EvSetApi "QDate" 2; EvSetApi "QDateTime" 2; EvSetApi "QString" 2;
   EvSetApi "QTextStream" 2; EvSetApi "QTime" 2; EvSetApi "QUrl" 2;
   EvSetApi "QVariant" 2].

(** The events up to the first import of the core submodule select
    version 2 for the seven types, and none is selected afterwards. *)
Definition v2_selected_before_core (tr : list event) : Prop :=
  forall pre e post,
    tr = pre ++ e :: post -> is_core_import e = true ->
    List.filter is_setapi pre = v2_api_calls /\ List.filter is_setapi post = [].

(** A checker for [v2_selected_before_core]: [acc] holds the [sip.setapi]
    calls seen so far. *)
Fixpoint check_v2_before_core (acc tr : list event) : bool :=
  match tr with
  | [] => true
  | e :: tr' =>
      if is_core_import e then
        bool_decide (acc = v2_api_calls)
        && bool_decide (List.filter is_setapi tr' = [])
        && check_v2_before_core acc tr'
      else
        check_v2_before_core (if is_setapi e then acc ++ [e] else acc) tr'
  end.

(** No [sip.setapi] call occurs in a trace. *)
Definition no_setapi (tr : list event) : Prop :=
  Forall (fun e => is_setapi e = false) tr.

(** A property of the outcome of running [m] on [self]. *)
Definition wp {A : Type} (m : M A) (self : gmap string value)
  (Q : outcome A -> Prop) : Prop :=
  Q (m self).

(** What a facade built for discriminant [d] holds, per lines 62-129: the
    discriminant, the core module, the signal, slot and property
    constructors taken from the core module, and the two installer slots. *)
Definition facade_for (w : world) (d : string) (facade : gmap string value)
  : Prop :=
  facade !! "pytest_qt_api" = Some (VStr d) /\
  exists core,
    facade !! "QtCore" = Some core /\
    is_Some (facade !! "Signal") /\
    is_Some (facade !! "Slot") /\
    is_Some (facade !! "Property") /\
    (if bool_decide (d = "pyside") then
       facade !! "Signal" = attr_of w core "Signal" /\
       facade !! "Slot" = attr_of w core "Slot" /\
       facade !! "Property" = attr_of w core "Property"
     else
       facade !! "Signal" = attr_of w core "pyqtSignal" /\
       facade !! "Slot" = attr_of w core "pyqtSlot" /\
       facade !! "Property" = attr_of w core "pyqtProperty") /\
    (if bool_decide (d = "pyqt5") then
       is_Some (facade !! "qInstallMessageHandler") /\
       facade !! "qInstallMessageHandler" = attr_of w core "qInstallMessageHandler" /\
       facade !! "qInstallMsgHandler" = Some VNone
     else
       is_Some (facade !! "qInstallMsgHandler") /\
       facade !! "qInstallMsgHandler" = attr_of w core "qInstallMsgHandler" /\
       facade !! "qInstallMessageHandler" = Some VNone).

(** No attribute of any module is [None]: the symbols a binding exports
    are concrete objects. *)
Definition exports_concrete (w : world) : Prop :=
  map_Forall (fun _ tbl => map_Forall (fun _ v => v <> VNone) tbl) (modules w).

#[global] Instance exports_concrete_dec w : Decision (exports_concrete w).
Proof. unfold exports_concrete. apply _. Defined.

(** The backend name of a reported version record. *)
Definition reported_name (r : result VersionTuple) : option value :=
  match r with
  | Ok v => Some (qt_api v)
  | Raise _ => None
  end.

(** ** Vocabulary for the whole of [set_qt_api] and [get_versions] *)

(** The attributes that lines 62-129 assign on [self]. *)
Definition facade_attrs : list string :=
  ["pytest_qt_api"; "QtCore"; "QtGui"; "QtTest"; "Qt"; "QEvent";
   "qDebug"; "qWarning"; "qCritical"; "qFatal";
   "QtDebugMsg"; "QtWarningMsg"; "QtCriticalMsg"; "QtFatalMsg";
   "qInstallMsgHandler"; "qInstallMessageHandler";
   "Signal"; "Slot"; "Property"; "QApplication"; "QWidget"].

(** The names of lines 91-101, copied from the core module unchanged. *)
Definition copied_from_core : list string :=
  ["Qt"; "QEvent"; "qDebug"; "qWarning"; "qCritical"; "qFatal";
   "QtDebugMsg"; "QtWarningMsg"; "QtCriticalMsg"; "QtFatalMsg"].

(** A method that neither reads [self] nor depends on it: run on more
    attributes, it does the same and carries the extra ones along. *)
Definition local {A : Type} (m : M A) : Prop :=
  forall s self : gmap string value,
    m (s ∪ self) =
      Outcome (out_self (m s) ∪ self) (out_trace (m s)) (out_result (m s)).

(** A method that assigns no attribute of [self] outside [names]. *)
Definition confined {A : Type} (names : list string) (m : M A) : Prop :=
  forall (s : gmap string value) k,
    k ∉ names -> out_self (m s) !! k = s !! k.

(** A method that leaves [self] as it is and makes no [sip.setapi] call. *)
Definition reader {A : Type} (m : M A) : Prop :=
  forall s : gmap string value,
    out_self (m s) = s /\ no_setapi (out_trace (m s)).

(** The backend name [get_versions] reports for a stored discriminant. *)
Definition display_name (d : string) : string :=
  if bool_decide (d = "pyside") then "PySide"
  else if bool_decide (d = "pyqt5") then "PyQt5" else "PyQt4".

(** ** The stand-in of the documentation build (lines 147-163)

    A value met while using a [Mock]: a [Mock] instance, a string, or the
    empty dict. *)
Inductive mock_value : Type :=
  | MMock
  | MStr (s : string)
  | MEmptyDict.

(** [Mock.__getattr__(name)], lines 154-163 *)
Definition Mock__getattr__ (name : string) : mock_value :=
  if bool_decide (name ∈ ["__file__"; "__path__"]) then MStr "/dev/null"
  else if bool_decide (name ∈ ["__name__"; "__qualname__"]) then MStr name
  else if bool_decide (name = "__annotations__") then MEmptyDict
  else MMock.

(** [Mock.__call__], with any arguments, lines 151-152 *)
Definition Mock__call__ : mock_value := MMock.

(** One use of a value: an attribute access or a call. *)
Inductive use : Type :=
  | Attr (name : string)
  | Call.

Definition special_names : list string :=
  ["__file__"; "__path__"; "__name__"; "__qualname__"; "__annotations__"].

(** [__getattr__] is the fallback of attribute lookup.  It is reached for
    the five names it tests, which a [Mock] instance does not carry, and
    for every name that does not begin with two underscores; the other
    double-underscore names may be found by ordinary lookup and are not
    followed. *)
Definition reaches_getattr (name : string) : bool :=
  bool_decide (name ∈ special_names) || negb (String.prefix "__" name).

(** A use of a [Mock]; the uses of strings and dicts are those of the
    built-in types and are not followed. *)
Definition mock_use (v : mock_value) (u : use) : option mock_value :=
  match v, u with
  | MMock, Attr name =>
      if reaches_getattr name then Some (Mock__getattr__ name) else None
  | MMock, Call => Some Mock__call__
  | _, _ => None
  end.

Fixpoint mock_uses (v : mock_value) (us : list use) : option mock_value :=
  match us with
  | [] => Some v
  | u :: us' =>
      match mock_use v u with
      | Some v' => mock_uses v' us'
      | None => None
      end
  end.

(** A call, or an access to a name without leading double underscore. *)
Definition plain_use (u : use) : Prop :=
  match u with
  | Attr name => String.prefix "__" name = false
  | Call => True
  end.

(** The import requests that name the package [root] or, when [sip] is
    allowed, the package sip. *)
Definition imports_within (root : string) (sip : bool) (tr : list event) : bool :=
  forallb (fun e =>
    match e with
    | EvImport n _ => bool_decide (n = root) || (sip && bool_decide (n = "sip"))
    | EvSetApi _ _ => true
    end) tr.

(** Some request in the trace imports from the package [root]. *)
Definition imports_from (root : string) (tr : list event) : bool :=
  existsb (fun e =>
    match e with
    | EvImport n _ => bool_decide (n = root)
    | EvSetApi _ _ => false
    end) tr.

(** The seven types of lines 80-86. *)
Definition v2_types : list string :=
  ["QDate"; "QDateTime"; "QString"; "QTextStream"; "QTime"; "QUrl"; "QVariant"].

(** * Properties *)

(** ** Running the monad *)

Lemma bind_ok {A B : Type} (m : M A) (f : A -> M B) self s1 t1 a :
  m self = Outcome s1 t1 (Ok a) ->
  (m ≫= f) self =
    Outcome (out_self (f a s1)) (t1 ++ out_trace (f a s1)) (out_result (f a s1)).
Proof. intros E. unfold mbind, M_bind, bind. rewrite E. reflexivity. Qed.

Lemma bind_raise {A B : Type} (m : M A) (f : A -> M B) self s1 t1 e :
  m self = Outcome s1 t1 (Raise e) ->
  (m ≫= f) self = Outcome s1 t1 (Raise e).
Proof. intros E. unfold mbind, M_bind, bind. rewrite E. reflexivity. Qed.

Lemma outcome_eta {A : Type} (o : outcome A) :
  o = Outcome (out_self o) (out_trace o) (out_result o).
Proof. destruct o; reflexivity. Qed.

Lemma bind_trace {A B : Type} (m : M A) (f : A -> M B) self :
  out_trace ((m ≫= f) self) =
  out_trace (m self) ++
    match out_result (m self) with
    | Ok a => out_trace (f a (out_self (m self)))
    | Raise _ => []
    end.
Proof.
  unfold mbind, M_bind, bind.
  destruct (out_result (m self)); simpl; [reflexivity | symmetry; apply app_nil_r].
Qed.

Lemma bind_self {A B : Type} (m : M A) (f : A -> M B) self :
  out_self ((m ≫= f) self) =
    match out_result (m self) with
    | Ok a => out_self (f a (out_self (m self)))
    | Raise _ => out_self (m self)
    end.
Proof. unfold mbind, M_bind, bind. destruct (out_result (m self)); reflexivity. Qed.

Lemma bind_result {A B : Type} (m : M A) (f : A -> M B) self :
  out_result ((m ≫= f) self) =
    match out_result (m self) with
    | Ok a => out_result (f a (out_self (m self)))
    | Raise e => Raise e
    end.
Proof. unfold mbind, M_bind, bind. destruct (out_result (m self)); reflexivity. Qed.

(** ** The primitives, run *)

Lemma import_run w name fromlist self :
  __import__ w name fromlist self =
    Outcome self [EvImport name fromlist]
      (if importable w name then Ok (VModule name) else Raise (ImportError name)).
Proof. unfold __import__. destruct (importable w name); reflexivity. Qed.

Lemma try_import_run w name self :
  _try_import w name self =
    Outcome self [EvImport name []] (Ok (importable w name)).
Proof.
  unfold _try_import, except_ImportError.
  unfold mbind, M_bind, bind. rewrite import_run. simpl.
  destruct (importable w name); reflexivity.
Qed.

Lemma sip_setapi_run w name version self :
  sip_setapi w name version self =
    Outcome self [EvSetApi name version]
      (if sip_accepts w name version then Ok tt else Raise (ValueError name)).
Proof. unfold sip_setapi. destruct (sip_accepts w name version); reflexivity. Qed.

Lemma getattr_run w v attr self :
  getattr w v attr self =
    Outcome self []
      (match attr_of w v attr with
       | Some x => Ok x
       | None => Raise (AttributeError attr)
       end).
Proof. unfold getattr. destruct (attr_of w v attr); reflexivity. Qed.

Lemma getitem_run d key self :
  getitem d key self =
    Outcome self []
      (match d !! key with Some v => Ok v | None => Raise (KeyError key) end).
Proof. unfold getitem. destruct (d !! key); reflexivity. Qed.

Lemma guess_qt_api_run w self :
  _guess_qt_api w self =
    Outcome self (probe_trace w candidates)
      (match first_detectable w with
       | Some c => Ok c.2
       | None => Raise NoBackendFoundError
       end).
Proof.
  unfold _guess_qt_api, first_detectable, candidates. simpl.
  rewrite (bind_ok _ _ _ _ _ _ (try_import_run w "PySide" self)).
  destruct (importable w "PySide"); [reflexivity |].
  rewrite (bind_ok _ _ _ _ _ _ (try_import_run w "PyQt4" self)).
  destruct (importable w "PyQt4"); [reflexivity |].
  rewrite (bind_ok _ _ _ _ _ _ (try_import_run w "PyQt5" self)).
  destruct (importable w "PyQt5"); reflexivity.
Qed.

(** ** Resolution *)

Lemma force_test (o : option string) :
  bool_decide (default "false" o = "true") = bool_decide (o = Some "true").
Proof.
  apply bool_decide_ext. destruct o as [s|]; simpl; split; congruence.
Qed.

Lemma resolve_forced w q :
  force_flag_set w -> resolve_qt_api w q = ret "pyqt4".
Proof.
  intros H. unfold resolve_qt_api. rewrite force_test.
  rewrite bool_decide_eq_true_2 by exact H. reflexivity.
Qed.

Lemma resolve_not_forced w q :
  ~ force_flag_set w ->
  resolve_qt_api w q =
    if negb (truthy q) then
      match environ w !! "PYTEST_QT_API" with
      | Some v =>
          if negb (bool_decide (lower v ∈ known_apis))
          then raise (ConfigurationError (lower v))
          else ret (lower v)
      | None => _guess_qt_api w
      end
    else ret (default EmptyString q).
Proof.
  intros H. unfold resolve_qt_api. rewrite force_test.
  rewrite bool_decide_eq_false_2 by exact H. reflexivity.
Qed.

Lemma resolve_self w q self : out_self (resolve_qt_api w q self) = self.
Proof.
  unfold resolve_qt_api.
  repeat first [ case_bool_decide | case_match ]; simpl; try reflexivity.
  all: rewrite guess_qt_api_run; reflexivity.
Qed.

Lemma resolve_no_setapi w q self :
  no_setapi (out_trace (resolve_qt_api w q self)).
Proof.
  unfold resolve_qt_api, no_setapi.
  repeat first [ case_bool_decide | case_match ]; simpl; try constructor.
  all: rewrite guess_qt_api_run; simpl.
  all: repeat first [ case_match | constructor ]; reflexivity.
Qed.

Lemma guess_never_v2 w self :
  out_result (_guess_qt_api w self) <> Ok "pyqt4v2".
Proof.
  rewrite guess_qt_api_run. unfold first_detectable, candidates. simpl.
  destruct (importable w "PySide"); [discriminate |].
  destruct (importable w "PyQt4"); [discriminate |].
  destruct (importable w "PyQt5"); discriminate.
Qed.

Lemma resolve_v2_silent w q self :
  out_result (resolve_qt_api w q self) = Ok "pyqt4v2" ->
  resolve_qt_api w q self = Outcome self [] (Ok "pyqt4v2").
Proof.
  unfold resolve_qt_api.
  repeat first [ case_bool_decide | case_match ]; simpl;
    try discriminate; try (intros [= <-]; reflexivity).
  all: intros Hg; exfalso; exact (guess_never_v2 _ _ Hg).
Qed.

Lemma root_module_known d r :
  _root_modules !! d = Some r -> d ∈ known_apis.
Proof.
  unfold _root_modules, known_apis. rewrite !lookup_insert, lookup_empty.
  repeat case_decide; subst; try discriminate; intros _; set_solver.
Qed.

Lemma root_module_unknown d :
  d ∉ known_apis -> _root_modules !! d = None.
Proof.
  intros H. destruct (_root_modules !! d) eqn:E; [| reflexivity].
  exfalso. eauto using root_module_known.
Qed.

(** C3. With the force flag not set and an empty override, a non-empty
    configured value whose lower-cased form is not one of pyside, pyqt4,
    pyqt4v2, pyqt5 makes [set_qt_api] raise the configuration error; [self]
    is left as it was and nothing is imported, so no facade is built. *)
Theorem C3_unknown_configured_value_is_rejected w q self v :
  ~ force_flag_set w ->
  truthy q = false ->
  environ w !! "PYTEST_QT_API" = Some v ->
  v <> EmptyString ->
  lower v ∉ known_apis ->
  set_qt_api w q self =
    Outcome self [] (Raise (ConfigurationError (lower v))).
Proof.
  intros Hforce Hq Hv _ Hunknown. unfold set_qt_api.
  apply bind_raise. rewrite resolve_not_forced by exact Hforce.
  rewrite Hq, Hv. simpl.
  rewrite bool_decide_eq_false_2 by exact Hunknown. reflexivity.
Qed.

Lemma C3_witness :
  set_qt_api (demo_world [("PYTEST_QT_API", "PyQt6")]) (Some EmptyString) ∅ =
    Outcome ∅ [] (Raise (ConfigurationError "pyqt6")).
Proof.
  apply (C3_unknown_configured_value_is_rejected
           (demo_world [("PYTEST_QT_API", "PyQt6")]) (Some EmptyString) ∅ "PyQt6").
  - unfold force_flag_set. vm_compute. discriminate.
  - reflexivity.
  - reflexivity.
  - discriminate.
  - apply (bool_decide_eq_false_1 (lower "PyQt6" ∈ known_apis)). vm_compute. reflexivity.
Defined.

(** C4. With no force flag, no override and no configured value, the
    resolver probes PySide, then PyQt4, then PyQt5, stops at the first
    probe that succeeds and returns its discriminant; when exactly one
    candidate can be imported, it is the one returned. *)
Theorem C4_auto_detection_takes_first_detectable w q self :
  ~ force_flag_set w ->
  truthy q = false ->
  environ w !! "PYTEST_QT_API" = None ->
  resolve_qt_api w q self =
    Outcome self (probe_trace w candidates)
      (match first_detectable w with
       | Some c => Ok c.2
       | None => Raise NoBackendFoundError
       end)
  /\ (forall c, c ∈ candidates ->
        importable w c.1 = true ->
        (forall c', c' ∈ candidates -> importable w c'.1 = true -> c' = c) ->
        out_result (resolve_qt_api w q self) = Ok c.2).
Proof.
  intros Hforce Hq Hv.
  assert (Hrun : resolve_qt_api w q self = _guess_qt_api w self).
  { rewrite resolve_not_forced by exact Hforce. rewrite Hq, Hv. reflexivity. }
  rewrite Hrun, guess_qt_api_run. split; [reflexivity |].
  intros c Hc Himp Honly. simpl.
  unfold first_detectable.
  destruct (List.find (fun c0 => importable w c0.1) candidates) as [c0|] eqn:Hfind.
  - apply find_some in Hfind as [Hin Himp0].
    apply list_elem_of_In in Hin. rewrite (Honly c0 Hin Himp0). reflexivity.
  - exfalso. apply list_elem_of_In in Hc.
    pose proof (find_none _ _ Hfind c Hc) as Hno. simpl in Hno. congruence.
Qed.

Lemma C4_witness :
  out_result
    (resolve_qt_api
       (World ∅ (<["PyQt5" := ∅]> ∅) ∅ (fun _ _ => true)) None ∅) = Ok "pyqt5".
Proof.
  refine (proj2 (C4_auto_detection_takes_first_detectable
            (World ∅ (<["PyQt5" := ∅]> ∅) ∅ (fun _ _ => true)) None ∅ _ _ _)
            ("PyQt5", "pyqt5") _ _ _).
  - unfold force_flag_set. vm_compute. discriminate.
  - reflexivity.
  - reflexivity.
  - unfold candidates. set_solver.
  - vm_compute. reflexivity.
  - intros c' Hc' Himp. unfold candidates in Hc'.
    repeat (apply elem_of_cons in Hc' as [-> | Hc']);
      [exfalso; vm_compute in Himp; discriminate ..| reflexivity |].
    apply elem_of_nil in Hc'. destruct Hc'.
Defined.

(** C5. With no force flag, no override and no configured value, when
    none of PySide, PyQt4, PyQt5 can be imported, [set_qt_api] raises the
    no-backend error after the three probes; [self] is left as it was. *)
Theorem C5_no_backend_found w q self :
  ~ force_flag_set w ->
  truthy q = false ->
  environ w !! "PYTEST_QT_API" = None ->
  (forall c, c ∈ candidates -> importable w c.1 = false) ->
  set_qt_api w q self =
    Outcome self
      [EvImport "PySide" []; EvImport "PyQt4" []; EvImport "PyQt5" []]
      (Raise NoBackendFoundError).
Proof.
  intros Hforce Hq Hv Hnone. unfold set_qt_api.
  apply bind_raise. rewrite resolve_not_forced by exact Hforce.
  rewrite Hq, Hv. simpl. rewrite guess_qt_api_run.
  assert (H1 : importable w "PySide" = false)
    by (apply (Hnone ("PySide", "pyside")); unfold candidates; set_solver).
  assert (H2 : importable w "PyQt4" = false)
    by (apply (Hnone ("PyQt4", "pyqt4")); unfold candidates; set_solver).
  assert (H3 : importable w "PyQt5" = false)
    by (apply (Hnone ("PyQt5", "pyqt5")); unfold candidates; set_solver).
  unfold first_detectable, candidates. simpl.
  rewrite H1, H2, H3. reflexivity.
Qed.

Lemma C5_witness :
  set_qt_api (World ∅ ∅ ∅ (fun _ _ => true)) None ∅ =
    Outcome ∅
      [EvImport "PySide" []; EvImport "PyQt4" []; EvImport "PyQt5" []]
      (Raise NoBackendFoundError).
Proof.
  apply (C5_no_backend_found (World ∅ ∅ ∅ (fun _ _ => true)) None ∅).
  - unfold force_flag_set. vm_compute. discriminate.
  - reflexivity.
  - reflexivity.
  - intros c _. vm_compute. reflexivity.
Defined.

(** C6. With the force flag not set and an empty override, a configured
    value whose lower-cased form is one of pyside, pyqt4, pyqt4v2, pyqt5
    resolves to that lower-cased form, without any probe. *)
Theorem C6_known_configured_value_is_used w q self v :
  ~ force_flag_set w ->
  truthy q = false ->
  environ w !! "PYTEST_QT_API" = Some v ->
  lower v ∈ known_apis ->
  resolve_qt_api w q self = Outcome self [] (Ok (lower v)).
Proof.
  intros Hforce Hq Hv Hknown.
  rewrite resolve_not_forced by exact Hforce.
  rewrite Hq, Hv. simpl.
  rewrite bool_decide_eq_true_2 by exact Hknown. reflexivity.
Qed.

Lemma C6_witness :
  resolve_qt_api (demo_world [("PYTEST_QT_API", "PyQt4V2")]) (Some EmptyString) ∅ =
    Outcome ∅ [] (Ok "pyqt4v2").
Proof.
  apply (C6_known_configured_value_is_used
           (demo_world [("PYTEST_QT_API", "PyQt4V2")]) (Some EmptyString) ∅ "PyQt4V2").
  - unfold force_flag_set. vm_compute. discriminate.
  - reflexivity.
  - reflexivity.
  - apply (bool_decide_eq_true_1 (lower "PyQt4V2" ∈ known_apis)). vm_compute. reflexivity.
Defined.

(** C9 as stated fails: an unknown explicit override passes resolution
    unchecked and is stored as the discriminant; the failure comes from
    the lookup in [_root_modules]. *)
Lemma C9_counterexample :
  ~ force_flag_set (demo_world [])
  /\ ("bogus" ∉ known_apis)
  /\ resolve_qt_api (demo_world []) (Some "bogus") ∅ = Outcome ∅ [] (Ok "bogus")
  /\ set_qt_api (demo_world []) (Some "bogus") ∅ =
       Outcome (<["pytest_qt_api" := VStr "bogus"]> ∅) [] (Raise (KeyError "bogus")).
Proof.
  split; [unfold force_flag_set; vm_compute; discriminate |].
  split; [apply (bool_decide_eq_false_1 ("bogus" ∈ known_apis)); vm_compute; reflexivity |].
  split; vm_compute; reflexivity.
Qed.

(** C9, amended. With the force flag not set, a non-empty explicit
    override is taken verbatim as the discriminant, neither lower-cased
    nor checked against the known set; an unknown one is stored in
    [self.pytest_qt_api] and then rejected by the lookup in
    [_root_modules] with a [KeyError], before any [sip.setapi] call or
    import is made. *)
Theorem C9_explicit_override_is_used_verbatim w s self :
  ~ force_flag_set w ->
  s <> EmptyString ->
  resolve_qt_api w (Some s) self = Outcome self [] (Ok s)
  /\ (s ∉ known_apis ->
      set_qt_api w (Some s) self =
        Outcome (<["pytest_qt_api" := VStr s]> self) [] (Raise (KeyError s))).
Proof.
  intros Hforce Hs.
  assert (Hres : resolve_qt_api w (Some s) self = Outcome self [] (Ok s)).
  { rewrite resolve_not_forced by exact Hforce. simpl.
    rewrite bool_decide_eq_false_2 by exact Hs. reflexivity. }
  split; [exact Hres |].
  intros Hunknown. unfold set_qt_api.
  rewrite (bind_ok _ _ _ _ _ _ Hres).
  rewrite (bind_ok _ _ _ _ _ tt (eq_refl : setattr_self "pytest_qt_api" (VStr s) self = Outcome _ [] (Ok tt))).
  erewrite bind_raise;
    [reflexivity | rewrite getitem_run, root_module_unknown by exact Hunknown; reflexivity].
Qed.

Lemma C9_witness :
  resolve_qt_api (demo_world []) (Some "PyQt5") ∅ = Outcome ∅ [] (Ok "PyQt5")
  /\ set_qt_api (demo_world []) (Some "PyQt5") ∅ =
       Outcome (<["pytest_qt_api" := VStr "PyQt5"]> ∅) [] (Raise (KeyError "PyQt5")).
Proof.
  destruct (C9_explicit_override_is_used_verbatim (demo_world []) "PyQt5" ∅)
    as [Hres Hset].
  - unfold force_flag_set. vm_compute. discriminate.
  - discriminate.
  - split; [exact Hres | apply Hset].
    apply (bool_decide_eq_false_1 ("PyQt5" ∈ known_apis)). vm_compute. reflexivity.
Defined.

(** C10. The force flag acts only when its value is exactly [true]: for
    any other value, or none, resolution and the whole of [set_qt_api]
    run as on the machine without the flag, that is through the explicit
    override, the configured value and auto-detection. *)
Theorem C10_force_flag_needs_exactly_true w q :
  environ w !! "PYTEST_QT_FORCE_PYQT" <> Some "true" ->
  resolve_qt_api w q = resolve_qt_api (unset_force_flag w) q
  /\ set_qt_api w q = set_qt_api (unset_force_flag w) q
  /\ resolve_qt_api w q =
       if negb (truthy q) then
         match environ w !! "PYTEST_QT_API" with
         | Some v =>
             if negb (bool_decide (lower v ∈ known_apis))
             then raise (ConfigurationError (lower v))
             else ret (lower v)
         | None => _guess_qt_api w
         end
       else ret (default EmptyString q).
Proof.
  intros Hflag.
  assert (Hres : resolve_qt_api (unset_force_flag w) q = resolve_qt_api w q).
  { rewrite (resolve_not_forced w) by exact Hflag.
    rewrite (resolve_not_forced (unset_force_flag w)).
    - unfold unset_force_flag at 1. simpl.
      rewrite lookup_delete_ne by discriminate. reflexivity.
    - unfold force_flag_set, unset_force_flag. simpl.
      rewrite lookup_delete_eq. discriminate. }
  split; [symmetry; exact Hres |].
  split; [| apply resolve_not_forced; exact Hflag].
  unfold set_qt_api. rewrite Hres. reflexivity.
Qed.

Lemma C10_witness :
  let w := demo_world [("PYTEST_QT_FORCE_PYQT", "True"); ("PYTEST_QT_API", "pyqt5")] in
  resolve_qt_api w None = resolve_qt_api (unset_force_flag w) None
  /\ set_qt_api w None = set_qt_api (unset_force_flag w) None.
Proof.
  intros w.
  destruct (C10_force_flag_needs_exactly_true w None) as (H1 & H2 & _).
  - vm_compute. discriminate.
  - split; [exact H1 | exact H2].
Defined.

Example force_flag_other_values :
  Forall (fun flag =>
            out_result (resolve_qt_api
              (demo_world [("PYTEST_QT_FORCE_PYQT", flag); ("PYTEST_QT_API", "pyqt5")])
              None ∅) = Ok "pyqt5")
    ["True"; "TRUE"; "1"; "false"; EmptyString].
Proof. repeat constructor. Qed.

(** ** Stepping through a method *)

Lemma wp_bind {A B : Type} (m : M A) (f : A -> M B) self (Q : outcome B -> Prop) :
  wp m self (fun o =>
    match out_result o with
    | Ok a =>
        wp (f a) (out_self o) (fun o' =>
          Q (Outcome (out_self o') (out_trace o ++ out_trace o') (out_result o')))
    | Raise e => Q (Outcome (out_self o) (out_trace o) (Raise e))
    end) ->
  wp (m ≫= f) self Q.
Proof.
  unfold wp, mbind, M_bind, bind. destruct (out_result (m self)); auto.
Qed.

Lemma wp_ret {A : Type} (a : A) self (Q : outcome A -> Prop) :
  Q (Outcome self [] (Ok a)) -> wp (ret a) self Q.
Proof. exact id. Qed.

Lemma wp_raise {A : Type} e self (Q : outcome A -> Prop) :
  Q (Outcome self [] (Raise e)) -> wp (raise e) self Q.
Proof. exact id. Qed.

Lemma wp_setattr name v self (Q : outcome unit -> Prop) :
  Q (Outcome (<[name := v]> self) [] (Ok tt)) -> wp (setattr_self name v) self Q.
Proof. exact id. Qed.

Lemma wp_getattr w v attr self (Q : outcome value -> Prop) :
  (forall x, attr_of w v attr = Some x -> Q (Outcome self [] (Ok x))) ->
  (attr_of w v attr = None -> Q (Outcome self [] (Raise (AttributeError attr)))) ->
  wp (getattr w v attr) self Q.
Proof.
  intros Hsome Hnone. unfold wp. rewrite getattr_run.
  destruct (attr_of w v attr); auto.
Qed.

Lemma wp_import w name fromlist self (Q : outcome value -> Prop) :
  (importable w name = true ->
   Q (Outcome self [EvImport name fromlist] (Ok (VModule name)))) ->
  (importable w name = false ->
   Q (Outcome self [EvImport name fromlist] (Raise (ImportError name)))) ->
  wp (__import__ w name fromlist) self Q.
Proof.
  intros Hyes Hno. unfold wp. rewrite import_run.
  destruct (importable w name); auto.
Qed.

Lemma wp_sip_setapi w name version self (Q : outcome unit -> Prop) :
  (sip_accepts w name version = true ->
   Q (Outcome self [EvSetApi name version] (Ok tt))) ->
  (sip_accepts w name version = false ->
   Q (Outcome self [EvSetApi name version] (Raise (ValueError name)))) ->
  wp (sip_setapi w name version) self Q.
Proof.
  intros Hyes Hno. unfold wp. rewrite sip_setapi_run.
  destruct (sip_accepts w name version); auto.
Qed.

Lemma wp_getitem d key self (Q : outcome string -> Prop) :
  (forall v, d !! key = Some v -> Q (Outcome self [] (Ok v))) ->
  (d !! key = None -> Q (Outcome self [] (Raise (KeyError key)))) ->
  wp (getitem d key) self Q.
Proof.
  intros Hsome Hnone. unfold wp. rewrite getitem_run.
  destruct (d !! key); auto.
Qed.

Lemma wp_resolve w q self (Q : outcome string -> Prop) :
  Q (Outcome self (out_trace (resolve_qt_api w q self))
       (out_result (resolve_qt_api w q self))) ->
  wp (resolve_qt_api w q) self Q.
Proof.
  unfold wp. intros HQ.
  rewrite (outcome_eta (resolve_qt_api w q self)), resolve_self. exact HQ.
Qed.

(** Decide the closed tests of a branch. *)
Ltac eval_tests :=
  repeat match goal with
  | |- context [bool_decide ?P] =>
      let b := eval vm_compute in (bool_decide P) in
      change (bool_decide P) with b
  end.

Ltac wp_tidy := cbv beta; cbn [out_self out_trace out_result app]; eval_tests; cbv iota.

Ltac wp_step :=
  lazymatch goal with
  | |- wp (_ ≫= _) _ _ => apply wp_bind
  | |- wp (ret _) _ _ => apply wp_ret
  | |- wp (raise _) _ _ => apply wp_raise
  | |- wp (setattr_self _ _) _ _ => apply wp_setattr
  | |- wp (getattr _ _ _) _ _ => apply wp_getattr; [intros ? ? | intros ?]
  | |- wp (__import__ _ _ _) _ _ => apply wp_import; intros ?
  | |- wp (sip_setapi _ _ _) _ _ => apply wp_sip_setapi; intros ?
  | |- wp (bind_attr _ _ _ _) _ _ => unfold bind_attr
  | |- wp (_import_module _ _ _) _ _ => unfold _import_module
  end; wp_tidy.

Ltac known_api_cases H :=
  unfold known_apis in H;
  repeat (apply elem_of_cons in H as [-> | H]);
  [ .. | apply elem_of_nil in H; destruct H ].

Ltac map_lookups :=
  repeat first [ rewrite lookup_insert_eq
               | rewrite lookup_insert_ne by discriminate ].

Lemma built_facade w q self d :
  out_result (resolve_qt_api w q self) = Ok d ->
  out_result (set_qt_api w q self) = Ok tt ->
  d ∈ known_apis /\ facade_for w d (out_self (set_qt_api w q self)).
Proof.
  intros Hres.
  change (wp (set_qt_api w q) self (fun o =>
    out_result o = Ok tt -> d ∈ known_apis /\ facade_for w d (out_self o))).
  unfold set_qt_api. apply wp_bind, wp_resolve. rewrite Hres. wp_tidy.
  wp_step. wp_step. wp_step.
  apply wp_getitem; [intros root Hroot | discriminate]. wp_tidy.
  pose proof (root_module_known _ _ Hroot) as Hd.
  known_api_cases Hd; vm_compute in Hroot; injection Hroot as <-.
  all: repeat (wp_step; try discriminate).
  all: intros _; split; [unfold known_apis; set_solver |].
  all: unfold facade_for; eval_tests; cbv iota; map_lookups.
  all: split; [reflexivity |]; eexists; split; [reflexivity |].
  all: repeat split; eauto.
Qed.

Lemma attr_of_concrete w v attr x :
  exports_concrete w -> attr_of w v attr = Some x -> x <> VNone.
Proof.
  intros Hw Hx. destruct v as [| |n|]; simpl in Hx; try discriminate.
  destruct (modules w !! n) as [tbl|] eqn:Hn; simpl in Hx; [| discriminate].
  exact (Hw n tbl Hn attr x Hx).
Qed.

(** ** The facade *)

(** C1. For each of pyside, pyqt4, pyqt4v2, pyqt5, once [set_qt_api] has
    returned, both installer slots of [self] are assigned: one holds the
    installer exported by the core module of the backend, the other holds
    [None]; pyqt5 fills [qInstallMessageHandler], the others
    [qInstallMsgHandler]. *)
Theorem C1_exactly_one_installer_slot w q self d :
  exports_concrete w ->
  d ∈ known_apis ->
  out_result (resolve_qt_api w q self) = Ok d ->
  out_result (set_qt_api w q self) = Ok tt ->
  let facade := out_self (set_qt_api w q self) in
  exists core sym,
    facade !! "QtCore" = Some core /\ sym <> VNone /\
    ((d <> "pyqt5" /\
      attr_of w core "qInstallMsgHandler" = Some sym /\
      facade !! "qInstallMsgHandler" = Some sym /\
      facade !! "qInstallMessageHandler" = Some VNone)
     \/
     (d = "pyqt5" /\
      attr_of w core "qInstallMessageHandler" = Some sym /\
      facade !! "qInstallMsgHandler" = Some VNone /\
      facade !! "qInstallMessageHandler" = Some sym)).
Proof.
  intros Hw _ Hres Hok facade.
  destruct (built_facade w q self d Hres Hok)
    as (_ & _ & core & Hcore & _ & _ & _ & _ & Hslots).
  fold facade in Hcore, Hslots. exists core.
  case_bool_decide as Hd.
  - destruct Hslots as ([sym Hsym] & Hattr & Hnone).
    rewrite Hsym in Hattr. exists sym.
    split; [exact Hcore |]. split; [eauto using attr_of_concrete |].
    right. auto.
  - destruct Hslots as ([sym Hsym] & Hattr & Hnone).
    rewrite Hsym in Hattr. exists sym.
    split; [exact Hcore |]. split; [eauto using attr_of_concrete |].
    left. auto.
Qed.

Lemma demo_world_exports_concrete env : exports_concrete (demo_world env).
Proof.
  change (exports_concrete (World ∅ demo_modules ∅ (fun _ _ => true))).
  refine (bool_decide_unpack _ _). vm_compute. exact I.
Qed.

Lemma C1_witness :
  let facade := out_self (set_qt_api (demo_world []) (Some "pyqt5") ∅) in
  exists core sym,
    facade !! "QtCore" = Some core /\ sym <> VNone /\
    (("pyqt5" <> "pyqt5" /\
      attr_of (demo_world []) core "qInstallMsgHandler" = Some sym /\
      facade !! "qInstallMsgHandler" = Some sym /\
      facade !! "qInstallMessageHandler" = Some VNone)
     \/
     ("pyqt5" = "pyqt5" /\
      attr_of (demo_world []) core "qInstallMessageHandler" = Some sym /\
      facade !! "qInstallMsgHandler" = Some VNone /\
      facade !! "qInstallMessageHandler" = Some sym)).
Proof.
  apply (C1_exactly_one_installer_slot (demo_world []) (Some "pyqt5") ∅ "pyqt5").
  - apply demo_world_exports_concrete.
  - apply (bool_decide_eq_true_1 ("pyqt5" ∈ known_apis)). vm_compute. reflexivity.
  - vm_compute. reflexivity.
  - vm_compute. reflexivity.
Defined.

(** C2 as stated fails: with the force flag set, resolution returns pyqt4,
    not pyside, and the facade takes its signal constructor from
    [QtCore.pyqtSignal]; the core module loaded has no [Signal]. *)
Lemma C2_counterexample :
  let w := demo_world [("PYTEST_QT_FORCE_PYQT", "true")] in
  let run := set_qt_api w (Some "pyside") ∅ in
  force_flag_set w
  /\ out_result (resolve_qt_api w (Some "pyside") ∅) = Ok "pyqt4"
  /\ out_result (resolve_qt_api w (Some "pyside") ∅) <> Ok "pyside"
  /\ out_result run = Ok tt
  /\ out_self run !! "pytest_qt_api" = Some (VStr "pyqt4")
  /\ out_self run !! "QtCore" = Some (VModule "PyQt4.QtCore")
  /\ out_self run !! "Signal" = Some (VObj "PyQt4.QtCore.pyqtSignal")
  /\ attr_of w (VModule "PyQt4.QtCore") "Signal" = None.
Proof.
  repeat split; try (vm_compute; reflexivity).
  vm_compute. discriminate.
Qed.

(** C2, amended. With the force flag set to [true], resolution returns
    pyqt4 whatever the override and the configured value are; the facade
    then built takes its signal, slot and property constructors from
    [pyqtSignal], [pyqtSlot] and [pyqtProperty] of the core module, fills
    [qInstallMsgHandler] from the core module and leaves
    [qInstallMessageHandler] at [None]. *)
Theorem C2_force_flag_selects_pyqt4 w q self :
  force_flag_set w ->
  resolve_qt_api w q self = Outcome self [] (Ok "pyqt4")
  /\ (out_result (set_qt_api w q self) = Ok tt ->
      let facade := out_self (set_qt_api w q self) in
      facade !! "pytest_qt_api" = Some (VStr "pyqt4") /\
      exists core,
        facade !! "QtCore" = Some core /\
        facade !! "Signal" = attr_of w core "pyqtSignal" /\
        facade !! "Slot" = attr_of w core "pyqtSlot" /\
        facade !! "Property" = attr_of w core "pyqtProperty" /\
        is_Some (facade !! "qInstallMsgHandler") /\
        facade !! "qInstallMsgHandler" = attr_of w core "qInstallMsgHandler" /\
        facade !! "qInstallMessageHandler" = Some VNone).
Proof.
  intros Hforce.
  assert (Hres : resolve_qt_api w q self = Outcome self [] (Ok "pyqt4"))
    by (rewrite resolve_forced by exact Hforce; reflexivity).
  split; [exact Hres |]. intros Hok facade.
  destruct (built_facade w q self "pyqt4") as (_ & Hapi & core & Hcore & _ & _ & _ & Hsrc & Hslots);
    [rewrite Hres; reflexivity | exact Hok |].
  fold facade in Hapi, Hcore, Hsrc, Hslots.
  split; [exact Hapi |]. exists core.
  rewrite bool_decide_eq_false_2 in Hsrc by discriminate.
  rewrite bool_decide_eq_false_2 in Hslots by discriminate.
  tauto.
Qed.

Lemma C2_witness :
  let w := demo_world [("PYTEST_QT_FORCE_PYQT", "true"); ("PYTEST_QT_API", "pyqt5")] in
  resolve_qt_api w (Some "pyside") ∅ = Outcome ∅ [] (Ok "pyqt4").
Proof.
  intros w. apply (C2_force_flag_selects_pyqt4 w (Some "pyside") ∅).
  vm_compute. reflexivity.
Defined.

(** ** Order of the API selection and the import of the core module *)

Lemma check_v2_sound tr : forall acc,
  check_v2_before_core acc tr = true ->
  forall pre e post,
    tr = pre ++ e :: post -> is_core_import e = true ->
    acc ++ List.filter is_setapi pre = v2_api_calls
    /\ List.filter is_setapi post = [].
Proof.
  induction tr as [|e0 tr' IH]; intros acc Hcheck pre e post Heq Hcore.
  - destruct pre; discriminate.
  - destruct pre as [|e1 pre']; simpl in Heq; injection Heq as <- Htr.
    + subst tr'. simpl in Hcheck. rewrite Hcore in Hcheck.
      apply andb_true_iff in Hcheck as [Hcheck _].
      apply andb_true_iff in Hcheck as [Hacc Hpost].
      apply bool_decide_eq_true_1 in Hacc, Hpost.
      simpl. rewrite app_nil_r. auto.
    + simpl in Hcheck. destruct (is_core_import e0) eqn:He0.
      * apply andb_true_iff in Hcheck as [_ Hcheck].
        destruct e0 as [n fl | n v]; [| discriminate]. simpl.
        exact (IH acc Hcheck pre' e post Htr Hcore).
      * simpl. destruct (is_setapi e0).
        -- destruct (IH _ Hcheck pre' e post Htr Hcore) as [Hacc Hpost].
           rewrite <- app_assoc in Hacc. auto.
        -- exact (IH _ Hcheck pre' e post Htr Hcore).
Qed.

Lemma check_v2_before_core_sound tr :
  check_v2_before_core [] tr = true -> v2_selected_before_core tr.
Proof.
  intros Hcheck pre e post Heq Hcore.
  exact (check_v2_sound tr [] Hcheck pre e post Heq Hcore).
Qed.

Lemma v2_run_ordered w q self :
  out_result (resolve_qt_api w q self) = Ok "pyqt4v2" ->
  check_v2_before_core [] (out_trace (set_qt_api w q self)) = true
  /\ (importable w "sip" = true ->
      (forall n, sip_accepts w n 2 = true) ->
      exists post,
        out_trace (set_qt_api w q self) =
          EvImport "sip" [] :: v2_api_calls ++ EvImport "PyQt4" ["QtCore"] :: post).
Proof.
  intros Hres. apply resolve_v2_silent in Hres.
  change (wp (set_qt_api w q) self (fun o =>
    check_v2_before_core [] (out_trace o) = true
    /\ (importable w "sip" = true ->
        (forall n, sip_accepts w n 2 = true) ->
        exists post,
          out_trace o =
            EvImport "sip" [] :: v2_api_calls ++ EvImport "PyQt4" ["QtCore"] :: post))).
  unfold set_qt_api. apply wp_bind. unfold wp at 1. rewrite Hres. wp_tidy.
  wp_step. wp_step. wp_step.
  apply wp_getitem; [intros root Hroot | intros Hroot; vm_compute in Hroot; discriminate].
  vm_compute in Hroot; injection Hroot as <-. wp_tidy.
  repeat wp_step.
  all: (split; [reflexivity |]); intros Hsip Hacc.
  all: try congruence.
  all: try (match goal with H : sip_accepts _ _ _ = false |- _ =>
              rewrite Hacc in H; discriminate end).
  all: eexists; reflexivity.
Qed.

Lemma other_run_no_setapi w q self :
  out_result (resolve_qt_api w q self) <> Ok "pyqt4v2" ->
  no_setapi (out_trace (set_qt_api w q self)).
Proof.
  intros Hres.
  change (wp (set_qt_api w q) self (fun o => no_setapi (out_trace o))).
  unfold set_qt_api. apply wp_bind, wp_resolve.
  pose proof (resolve_no_setapi w q self) as Hquiet.
  destruct (out_result (resolve_qt_api w q self)) as [d|e]; wp_tidy;
    [| exact Hquiet].
  wp_step. wp_step. wp_step.
  apply wp_getitem; [intros root Hroot | intros _; wp_tidy]; cycle 1.
  { apply Forall_app. split; [exact Hquiet | constructor]. }
  wp_tidy.
  pose proof (root_module_known _ _ Hroot) as Hd.
  known_api_cases Hd; try congruence; vm_compute in Hroot; injection Hroot as <-.
  all: repeat wp_step.
  all: apply Forall_app; split; [exact Hquiet | repeat constructor].
Qed.

(** C7. When the resolved discriminant is pyqt4v2, the calls
    [sip.setapi(T, 2)] for QDate, QDateTime, QString, QTextStream, QTime,
    QUrl, QVariant all come, in this order, before any import of the core
    submodule, and none comes after it; when sip is importable and accepts
    the seven calls, they are made and the import of [PyQt4.QtCore]
    follows them.  For any other outcome of resolution no [sip.setapi]
    call is made. *)
Theorem C7_v2_api_selected_before_core_import w q self :
  (out_result (resolve_qt_api w q self) = Ok "pyqt4v2" ->
   v2_selected_before_core (out_trace (set_qt_api w q self))
   /\ (importable w "sip" = true ->
       (forall n, sip_accepts w n 2 = true) ->
       exists post,
         out_trace (set_qt_api w q self) =
           EvImport "sip" [] :: v2_api_calls ++ EvImport "PyQt4" ["QtCore"] :: post))
  /\ (out_result (resolve_qt_api w q self) <> Ok "pyqt4v2" ->
      no_setapi (out_trace (set_qt_api w q self))).
Proof.
  split.
  - intros Hres. destruct (v2_run_ordered w q self Hres) as [Hcheck Hfull].
    split; [apply check_v2_before_core_sound; exact Hcheck | exact Hfull].
  - apply other_run_no_setapi.
Qed.

Lemma C7_witness :
  let w := demo_world [("PYTEST_QT_API", "pyqt4v2")] in
  (v2_selected_before_core (out_trace (set_qt_api w None ∅))
   /\ exists post,
        out_trace (set_qt_api w None ∅) =
          EvImport "sip" [] :: v2_api_calls ++ EvImport "PyQt4" ["QtCore"] :: post)
  /\ no_setapi (out_trace (set_qt_api (demo_world []) (Some "pyqt5") ∅)).
Proof.
  intros w. split.
  - destruct (proj1 (C7_v2_api_selected_before_core_import w None ∅))
      as [Hord Hfull]; [vm_compute; reflexivity |].
    split; [exact Hord |].
    apply Hfull; [vm_compute; reflexivity | intros n; reflexivity].
  - apply (proj2 (C7_v2_api_selected_before_core_import
                    (demo_world []) (Some "pyqt5") ∅)).
    vm_compute. discriminate.
Defined.

(** ** Version report *)

Lemma getattr_self_run name self v :
  self !! name = Some v -> getattr_self name self = Outcome self [] (Ok v).
Proof. intros H. unfold getattr_self. rewrite H. reflexivity. Qed.

Lemma getattr_ok w v attr self x :
  attr_of w v attr = Some x -> getattr w v attr self = Outcome self [] (Ok x).
Proof. intros H. rewrite getattr_run, H. reflexivity. Qed.

Lemma call_ok w f self r :
  result_of_call w f = Some r -> call w f self = Outcome self [] (Ok r).
Proof. intros H. unfold call. rewrite H. reflexivity. Qed.

(** C8 as stated fails: the two PyQt families do not share one display
    name; a pyqt4 facade reports PyQt4 and a pyqt5 facade reports PyQt5. *)
Lemma C8_counterexample :
  let name_for d :=
    reported_name
      (out_result ((set_qt_api (demo_world []) (Some d) ;; get_versions (demo_world [])) ∅)) in
  name_for "pyqt4" = Some (VStr "PyQt4")
  /\ name_for "pyqt5" = Some (VStr "PyQt5")
  /\ ~ (exists name, forall d, d ∈ ["pyqt4"; "pyqt4v2"; "pyqt5"] -> name_for d = Some name).
Proof.
  intros name_for.
  assert (H4 : name_for "pyqt4" = Some (VStr "PyQt4")) by (vm_compute; reflexivity).
  assert (H5 : name_for "pyqt5" = Some (VStr "PyQt5")) by (vm_compute; reflexivity).
  split; [exact H4 |]. split; [exact H5 |].
  intros [name Hname].
  pose proof (Hname "pyqt4" ltac:(repeat constructor)) as E4.
  pose proof (Hname "pyqt5" ltac:(repeat constructor)) as E5.
  rewrite H4 in E4. rewrite H5 in E5. congruence.
Qed.

(** C8, amended. For a facade whose discriminant is pyqt4, pyqt4v2 or
    pyqt5, [get_versions] returns, leaving [self] as it is, the record
    whose backend name is PyQt5 for pyqt5 and PyQt4 for pyqt4 and pyqt4v2,
    whose backend version is [QtCore.PYQT_VERSION_STR], whose runtime
    version is the result of [QtCore.qVersion()] and whose compiled version
    is [QtCore.QT_VERSION_STR]. *)
Theorem C8_modern_backend_versions w self d core pyqt_version qVersion rt qt_version :
  self !! "pytest_qt_api" = Some (VStr d) ->
  d ∈ ["pyqt4"; "pyqt4v2"; "pyqt5"] ->
  self !! "QtCore" = Some core ->
  attr_of w core "PYQT_VERSION_STR" = Some pyqt_version ->
  attr_of w core "qVersion" = Some qVersion ->
  result_of_call w qVersion = Some rt ->
  attr_of w core "QT_VERSION_STR" = Some qt_version ->
  get_versions w self =
    Outcome self []
      (Ok (mkVersionTuple
             (VStr (if bool_decide (d = "pyqt5") then "PyQt5" else "PyQt4"))
             pyqt_version rt qt_version)).
Proof.
  intros Hapi Hd Hcore Hpyqt HqV Hrt Hqt. unfold get_versions.
  rewrite (bind_ok _ _ _ _ _ _ (getattr_self_run _ _ _ Hapi)).
  assert (Hside : bool_decide (VStr d = VStr "pyside") = false).
  { apply bool_decide_eq_false_2. intros Heq. injection Heq as Heq. subst d.
    repeat (apply elem_of_cons in Hd as [Hd | Hd]; [discriminate |]).
    apply elem_of_nil in Hd. exact Hd. }
  rewrite Hside.
  rewrite (bind_ok _ _ _ _ _ _ (getattr_self_run _ _ _ Hapi)).
  rewrite (bind_ok _ _ _ _ _ _ (getattr_self_run _ _ _ Hcore)).
  rewrite (bind_ok _ _ _ _ _ _ (getattr_ok _ _ _ _ _ Hpyqt)).
  rewrite (bind_ok _ _ _ _ _ _ (getattr_self_run _ _ _ Hcore)).
  rewrite (bind_ok _ _ _ _ _ _ (getattr_ok _ _ _ _ _ HqV)).
  rewrite (bind_ok _ _ _ _ _ _ (call_ok _ _ _ _ Hrt)).
  rewrite (bind_ok _ _ _ _ _ _ (getattr_self_run _ _ _ Hcore)).
  rewrite (bind_ok _ _ _ _ _ _ (getattr_ok _ _ _ _ _ Hqt)).
  simpl.
  assert (Hname : bool_decide (VStr d = VStr "pyqt5") = bool_decide (d = "pyqt5"))
    by (apply bool_decide_ext; split; congruence).
  rewrite Hname. reflexivity.
Qed.

Lemma C8_witness :
  let w := demo_world [] in
  get_versions w (out_self (set_qt_api w (Some "pyqt4v2") ∅)) =
    Outcome (out_self (set_qt_api w (Some "pyqt4v2") ∅)) []
      (Ok (mkVersionTuple (VStr "PyQt4") (VStr "4.11.4") (VStr "4.8.7") (VStr "4.8.7"))).
Proof.
  intros w.
  apply (C8_modern_backend_versions w _ "pyqt4v2" (VModule "PyQt4.QtCore")
           (VStr "4.11.4") (VObj "PyQt4.QtCore.qVersion") (VStr "4.8.7") (VStr "4.8.7")).
  - vm_compute. reflexivity.
  - apply (bool_decide_eq_true_1 ("pyqt4v2" ∈ ["pyqt4"; "pyqt4v2"; "pyqt5"])).
    vm_compute. reflexivity.
  - vm_compute. reflexivity.
  - vm_compute. reflexivity.
  - vm_compute. reflexivity.
  - vm_compute. reflexivity.
  - vm_compute. reflexivity.
Defined.

(** ** Runs on the machine with every binding installed *)

Example every_backend_builds :
  Forall (fun d => out_result (set_qt_api (demo_world []) (Some d) ∅) = Ok tt)
    known_apis.
Proof. repeat constructor. Qed.

Example configured_value_end_to_end :
  let run := set_qt_api (demo_world [("PYTEST_QT_API", "pyqt5")]) None ∅ in
  out_result run = Ok tt
  /\ out_self run !! "QApplication" = Some (VObj "PyQt5.QtWidgets.QApplication")
  /\ out_self run !! "qInstallMessageHandler" =
       Some (VObj "PyQt5.QtCore.qInstallMessageHandler")
  /\ out_self run !! "qInstallMsgHandler" = Some VNone.
Proof. repeat split; vm_compute; reflexivity. Qed.

Example lower_examples :
  lower "PyQt4V2" = "pyqt4v2" /\ lower "PYSIDE" = "pyside" /\ lower "pyqt5" = "pyqt5".
Proof. repeat split; reflexivity. Qed.

(** * Further properties of the module *)

Ltac wp_simpl := cbv beta; cbn [out_self out_trace out_result app]; cbv iota.
(** ** Methods that do not depend on [self] *)

Lemma local_ret {A : Type} (a : A) : local (ret a).
Proof. intros s self. reflexivity. Qed.

Lemma local_raise {A : Type} e : local (@raise A e).
Proof. intros s self. reflexivity. Qed.

Lemma local_emit e : local (emit e).
Proof. intros s self. reflexivity. Qed.

Lemma local_setattr name v : local (setattr_self name v).
Proof.
  intros s self. unfold setattr_self. simpl.
  rewrite insert_union_l. reflexivity.
Qed.

Lemma local_bind {A B : Type} (m : M A) (f : A -> M B) :
  local m -> (forall a, local (f a)) -> local (m ≫= f).
Proof.
  intros Hm Hf s self. unfold mbind, M_bind, bind.
  rewrite (Hm s self). simpl.
  destruct (out_result (m s)) as [a|e]; [| reflexivity].
  rewrite (Hf a (out_self (m s)) self). reflexivity.
Qed.

Lemma local_if {A : Type} (b : bool) (m1 m2 : M A) :
  local m1 -> local m2 -> local (if b then m1 else m2).
Proof. destruct b; auto. Qed.

Lemma local_getattr w v attr : local (getattr w v attr).
Proof.
  unfold getattr. destruct (attr_of w v attr); [apply local_ret | apply local_raise].
Qed.

Lemma local_getitem d key : local (getitem d key).
Proof.
  unfold getitem. destruct (d !! key); [apply local_ret | apply local_raise].
Qed.

Lemma local_import w name fromlist : local (__import__ w name fromlist).
Proof.
  unfold __import__. apply local_bind; [apply local_emit | intros _].
  apply local_if; [apply local_ret | apply local_raise].
Qed.

Lemma local_sip_setapi w name version : local (sip_setapi w name version).
Proof.
  unfold sip_setapi. apply local_bind; [apply local_emit | intros _].
  apply local_if; [apply local_ret | apply local_raise].
Qed.

Lemma local_of_run {A : Type} (m : M A) tr r :
  (forall s, m s = Outcome s tr r) -> local m.
Proof. intros Hrun s self. rewrite !Hrun. reflexivity. Qed.

Lemma local_resolve w q : local (resolve_qt_api w q).
Proof.
  unfold resolve_qt_api.
  repeat first [ apply local_if | apply local_ret | apply local_raise | case_match ].
  eapply local_of_run. intros s. apply guess_qt_api_run.
Qed.

Create HintDb local_db.
#[local] Hint Resolve local_ret local_raise local_emit local_setattr local_getattr
  local_getitem local_import local_sip_setapi local_resolve : local_db.

Ltac local_steps :=
  repeat first
    [ solve [auto with local_db]
    | apply local_bind; [| intros ?]
    | apply local_if ].

Lemma set_qt_api_local w q : local (set_qt_api w q).
Proof. unfold set_qt_api, bind_attr, _import_module. local_steps. Qed.

Lemma set_qt_api_over_fresh w q self :
  set_qt_api w q self =
    Outcome (out_self (set_qt_api w q ∅) ∪ self)
            (out_trace (set_qt_api w q ∅))
            (out_result (set_qt_api w q ∅)).
Proof.
  pose proof (set_qt_api_local w q ∅ self) as Hrun.
  rewrite (left_id_L ∅ (∪) self) in Hrun. exact Hrun.
Qed.

(** X1. What [set_qt_api] does is independent of the attributes [self]
    had before: the result and the requests are those of a run on a fresh
    instance, the final [self] is the fresh facade laid over the old
    attributes, and no old attribute is deleted. *)
Theorem X1_set_qt_api_extends_self w q self :
  out_result (set_qt_api w q self) = out_result (set_qt_api w q ∅)
  /\ out_trace (set_qt_api w q self) = out_trace (set_qt_api w q ∅)
  /\ out_self (set_qt_api w q self) = out_self (set_qt_api w q ∅) ∪ self
  /\ dom self ⊆ dom (out_self (set_qt_api w q self)).
Proof.
  rewrite (set_qt_api_over_fresh w q self). simpl.
  repeat split. rewrite dom_union_L. set_solver.
Qed.

(** X2. In an unchanged world, running [set_qt_api] again with the same
    argument on the [self] it produced, whether it returned or raised,
    gives the same result, the same requests and leaves [self] as it is. *)
Theorem X2_set_qt_api_idempotent w q self :
  set_qt_api w q (out_self (set_qt_api w q self)) = set_qt_api w q self.
Proof.
  rewrite (set_qt_api_over_fresh w q self). simpl.
  rewrite (set_qt_api_over_fresh w q (out_self (set_qt_api w q ∅) ∪ self)).
  rewrite (assoc_L (∪)), (idemp_L (∪)). reflexivity.
Qed.

(** ** Attributes that [set_qt_api] assigns *)

Lemma confined_ret {A : Type} names (a : A) : confined names (ret a).
Proof. intros s k _. reflexivity. Qed.

Lemma confined_raise {A : Type} names e : confined names (@raise A e).
Proof. intros s k _. reflexivity. Qed.

Lemma confined_of_local_reader {A : Type} names (m : M A) :
  (forall s, out_self (m s) = s) -> confined names m.
Proof. intros H s k _. rewrite H. reflexivity. Qed.

Lemma confined_setattr names name v :
  name ∈ names -> confined names (setattr_self name v).
Proof.
  intros Hin s k Hk. simpl. apply lookup_insert_ne.
  intros ->. exact (Hk Hin).
Qed.

Lemma confined_bind {A B : Type} names (m : M A) (f : A -> M B) :
  confined names m -> (forall a, confined names (f a)) ->
  confined names (m ≫= f).
Proof.
  intros Hm Hf s k Hk. rewrite bind_self.
  destruct (out_result (m s)) as [a|e].
  - rewrite (Hf a _ k Hk). exact (Hm s k Hk).
  - exact (Hm s k Hk).
Qed.

Lemma confined_if {A : Type} names (b : bool) (m1 m2 : M A) :
  confined names m1 -> confined names m2 -> confined names (if b then m1 else m2).
Proof. destruct b; auto. Qed.

Lemma confined_getattr names w v attr : confined names (getattr w v attr).
Proof. apply confined_of_local_reader. intros s. rewrite getattr_run. reflexivity. Qed.

Lemma confined_getitem names d key : confined names (getitem d key).
Proof. apply confined_of_local_reader. intros s. rewrite getitem_run. reflexivity. Qed.

Lemma confined_import names w name fromlist :
  confined names (__import__ w name fromlist).
Proof. apply confined_of_local_reader. intros s. rewrite import_run. reflexivity. Qed.

Lemma confined_sip_setapi names w name version :
  confined names (sip_setapi w name version).
Proof. apply confined_of_local_reader. intros s. rewrite sip_setapi_run. reflexivity. Qed.

Lemma confined_resolve names w q : confined names (resolve_qt_api w q).
Proof. apply confined_of_local_reader. intros s. apply resolve_self. Qed.

Ltac facade_attr := unfold facade_attrs; repeat constructor.

Ltac confined_steps :=
  repeat first
    [ apply confined_resolve
    | apply confined_ret
    | apply confined_raise
    | apply confined_getattr
    | apply confined_getitem
    | apply confined_import
    | apply confined_sip_setapi
    | apply confined_setattr; facade_attr
    | apply confined_bind; [| intros ?]
    | apply confined_if ].

(** X3. Whatever the outcome, [set_qt_api] assigns only the twenty-one
    facade attributes: any other attribute of [self] is as before. *)
Theorem X3_set_qt_api_assigns_only_facade_attrs w q self k :
  k ∉ facade_attrs ->
  out_self (set_qt_api w q self) !! k = self !! k.
Proof.
  revert self k.
  change (confined facade_attrs (set_qt_api w q)).
  unfold set_qt_api, bind_attr, _import_module. confined_steps.
Qed.

Lemma X3_witness :
  out_self (set_qt_api (demo_world []) (Some "pyqt5")
              (<["my_own_attribute" := VStr "kept"]> ∅)) !! "my_own_attribute"
  = Some (VStr "kept").
Proof.
  rewrite (X3_set_qt_api_assigns_only_facade_attrs (demo_world []) (Some "pyqt5")
             (<["my_own_attribute" := VStr "kept"]> ∅) "my_own_attribute").
  - reflexivity.
  - apply (bool_decide_eq_false_1 ("my_own_attribute" ∈ facade_attrs)).
    vm_compute. reflexivity.
Defined.

(** ** Reading the facade: [USING_PYSIDE] and [get_versions] *)

Lemma wp_getattr_self name self (Q : outcome value -> Prop) :
  (forall v, self !! name = Some v -> Q (Outcome self [] (Ok v))) ->
  (self !! name = None -> Q (Outcome self [] (Raise (AttributeError name)))) ->
  wp (getattr_self name) self Q.
Proof.
  intros Hsome Hnone. unfold wp, getattr_self.
  destruct (self !! name) as [v|];
    [exact (Hsome v eq_refl) | exact (Hnone eq_refl)].
Qed.

Lemma wp_call w f self (Q : outcome value -> Prop) :
  (forall r, result_of_call w f = Some r -> Q (Outcome self [] (Ok r))) ->
  (result_of_call w f = None ->
   Q (Outcome self [] (Raise (TypeError "object is not callable")))) ->
  wp (call w f) self Q.
Proof.
  intros Hsome Hnone. unfold wp, call.
  destruct (result_of_call w f) as [r|];
    [exact (Hsome r eq_refl) | exact (Hnone eq_refl)].
Qed.

Lemma reader_ret {A : Type} (a : A) : reader (ret a).
Proof. intros s. split; [reflexivity | constructor]. Qed.

Lemma reader_raise {A : Type} e : reader (@raise A e).
Proof. intros s. split; [reflexivity | constructor]. Qed.

Lemma reader_bind {A B : Type} (m : M A) (f : A -> M B) :
  reader m -> (forall a, reader (f a)) -> reader (m ≫= f).
Proof.
  intros Hm Hf s. destruct (Hm s) as [Hs Ht].
  rewrite bind_self, bind_trace.
  destruct (out_result (m s)) as [a|e].
  - destruct (Hf a (out_self (m s))) as [Hs' Ht'].
    split; [congruence | apply Forall_app; auto].
  - split; [exact Hs | rewrite app_nil_r; exact Ht].
Qed.

Lemma reader_if {A : Type} (b : bool) (m1 m2 : M A) :
  reader m1 -> reader m2 -> reader (if b then m1 else m2).
Proof. destruct b; auto. Qed.

Lemma reader_getattr_self name : reader (getattr_self name).
Proof.
  intros s. unfold getattr_self.
  destruct (s !! name); split; (reflexivity || constructor).
Qed.

Lemma reader_getattr w v attr : reader (getattr w v attr).
Proof. intros s. rewrite getattr_run. split; [reflexivity | constructor]. Qed.

Lemma reader_call w f : reader (call w f).
Proof.
  unfold call. destruct (result_of_call w f); [apply reader_ret | apply reader_raise].
Qed.

Lemma reader_import w name fromlist : reader (__import__ w name fromlist).
Proof.
  intros s. rewrite import_run. split; [reflexivity | repeat constructor].
Qed.

Ltac reader_steps :=
  repeat first
    [ apply reader_ret
    | apply reader_raise
    | apply reader_getattr_self
    | apply reader_getattr
    | apply reader_call
    | apply reader_import
    | apply reader_bind; [| intros ?]
    | apply reader_if ].

(** X4. [get_versions] and [USING_PYSIDE] only read: whether they return
    or raise, [self] is left as it is and no [sip.setapi] call is made;
    [USING_PYSIDE] requests no import at all. *)
Theorem X4_version_report_only_reads w self :
  out_self (get_versions w self) = self
  /\ no_setapi (out_trace (get_versions w self))
  /\ out_self (USING_PYSIDE self) = self
  /\ out_trace (USING_PYSIDE self) = [].
Proof.
  assert (Hv : reader (get_versions w)) by (unfold get_versions; reader_steps).
  destruct (Hv self) as [Hs Ht].
  split; [exact Hs |]. split; [exact Ht |].
  unfold USING_PYSIDE. rewrite bind_self, bind_trace.
  unfold getattr_self. destruct (self !! "pytest_qt_api"); simpl; auto.
Qed.

(** X5. On an instance whose discriminant was never assigned, as the
    module-level [_QtApi()] before any [set_qt_api], both [get_versions]
    and [USING_PYSIDE] raise [AttributeError] for [pytest_qt_api]. *)
Theorem X5_report_before_resolution_raises w self :
  self !! "pytest_qt_api" = None ->
  get_versions w self = Outcome self [] (Raise (AttributeError "pytest_qt_api"))
  /\ USING_PYSIDE self = Outcome self [] (Raise (AttributeError "pytest_qt_api")).
Proof.
  intros Hnone.
  assert (Hget : getattr_self "pytest_qt_api" self =
                 Outcome self [] (Raise (AttributeError "pytest_qt_api")))
    by (unfold getattr_self; rewrite Hnone; reflexivity).
  split.
  - unfold get_versions. apply bind_raise. exact Hget.
  - unfold USING_PYSIDE. apply bind_raise. exact Hget.
Qed.

Lemma X5_witness :
  get_versions (demo_world []) ∅ =
    Outcome ∅ [] (Raise (AttributeError "pytest_qt_api"))
  /\ USING_PYSIDE ∅ = Outcome ∅ [] (Raise (AttributeError "pytest_qt_api")).
Proof.
  apply (X5_report_before_resolution_raises (demo_world []) ∅).
  reflexivity.
Defined.

(** X6. For a facade whose discriminant is pyside, [get_versions] imports
    PySide and returns the record (PySide, [PySide.__version__],
    [QtCore.qVersion()], [QtCore.__version__]), leaving [self] as it is. *)
Theorem X6_pyside_versions w self core version qVersion rt core_version :
  self !! "pytest_qt_api" = Some (VStr "pyside") ->
  importable w "PySide" = true ->
  attr_of w (VModule "PySide") "__version__" = Some version ->
  self !! "QtCore" = Some core ->
  attr_of w core "qVersion" = Some qVersion ->
  result_of_call w qVersion = Some rt ->
  attr_of w core "__version__" = Some core_version ->
  get_versions w self =
    Outcome self [EvImport "PySide" []]
      (Ok (mkVersionTuple (VStr "PySide") version rt core_version)).
Proof.
  intros Hapi Himp Hver Hcore HqV Hrt Hcv. unfold get_versions.
  rewrite (bind_ok _ _ _ _ _ _ (getattr_self_run _ _ _ Hapi)).
  rewrite bool_decide_eq_true_2 by reflexivity.
  assert (Hrun : __import__ w "PySide" [] self =
                 Outcome self [EvImport "PySide" []] (Ok (VModule "PySide")))
    by (rewrite import_run, Himp; reflexivity).
  rewrite (bind_ok _ _ _ _ _ _ Hrun).
  rewrite (bind_ok _ _ _ _ _ _ (getattr_ok _ _ _ _ _ Hver)).
  rewrite (bind_ok _ _ _ _ _ _ (getattr_self_run _ _ _ Hcore)).
  rewrite (bind_ok _ _ _ _ _ _ (getattr_ok _ _ _ _ _ HqV)).
  rewrite (bind_ok _ _ _ _ _ _ (call_ok _ _ _ _ Hrt)).
  rewrite (bind_ok _ _ _ _ _ _ (getattr_self_run _ _ _ Hcore)).
  rewrite (bind_ok _ _ _ _ _ _ (getattr_ok _ _ _ _ _ Hcv)).
  reflexivity.
Qed.

Lemma X6_witness :
  let w := demo_world [] in
  get_versions w (out_self (set_qt_api w (Some "pyside") ∅)) =
    Outcome (out_self (set_qt_api w (Some "pyside") ∅)) [EvImport "PySide" []]
      (Ok (mkVersionTuple (VStr "PySide") (VStr "1.2.4") (VStr "4.8.7") (VStr "4.8.7"))).
Proof.
  intros w.
  apply (X6_pyside_versions w _ (VModule "PySide.QtCore") (VStr "1.2.4")
           (VObj "PySide.QtCore.qVersion") (VStr "4.8.7") (VStr "4.8.7"));
    vm_compute; reflexivity.
Defined.

Lemma reported_name_of_discriminant w self d v :
  self !! "pytest_qt_api" = Some (VStr d) ->
  out_result (get_versions w self) = Ok v ->
  qt_api v = VStr (display_name d).
Proof.
  intros Hapi. revert v.
  change (wp (get_versions w) self (fun o =>
    forall v, out_result o = Ok v -> qt_api v = VStr (display_name d))).
  unfold get_versions, display_name.
  assert (Hside : bool_decide (VStr d = VStr "pyside") = bool_decide (d = "pyside"))
    by (apply bool_decide_ext; split; congruence).
  assert (H5 : bool_decide (VStr d = VStr "pyqt5") = bool_decide (d = "pyqt5"))
    by (apply bool_decide_ext; split; congruence).
  apply wp_bind, wp_getattr_self; [intros api Hget | congruence].
  rewrite Hapi in Hget. injection Hget as <-.
  cbv beta; cbn [out_self out_trace out_result app].
  rewrite Hside. destruct (bool_decide (d = "pyside")); cbv iota.
  - repeat first
      [ wp_step
      | apply wp_getattr_self; [intros ? ? | intros ?]; wp_tidy
      | apply wp_call; [intros ? ? | intros ?]; wp_tidy ];
      intros vt Hvt; try discriminate; injection Hvt as <-; reflexivity.
  - apply wp_bind, wp_getattr_self; [intros api Hget | congruence].
    rewrite Hapi in Hget. injection Hget as <-.
    cbv beta; cbn [out_self out_trace out_result app].
    rewrite H5. destruct (bool_decide (d = "pyqt5")); cbv iota.
    all: repeat first
      [ wp_step
      | apply wp_getattr_self; [intros ? ? | intros ?]; wp_tidy
      | apply wp_call; [intros ? ? | intros ?]; wp_tidy ];
      intros vt Hvt; try discriminate; injection Hvt as <-; reflexivity.
Qed.

(** X7. After a successful [set_qt_api] that resolved discriminant [d],
    [USING_PYSIDE] is true exactly for pyside, and a successful
    [get_versions] names the backend PySide for pyside, PyQt5 for pyqt5 and
    PyQt4 for pyqt4 and pyqt4v2. *)
Theorem X7_report_follows_resolved_discriminant w q self d :
  out_result (resolve_qt_api w q self) = Ok d ->
  out_result (set_qt_api w q self) = Ok tt ->
  let facade := out_self (set_qt_api w q self) in
  USING_PYSIDE facade = Outcome facade [] (Ok (bool_decide (d = "pyside")))
  /\ forall v, out_result (get_versions w facade) = Ok v ->
       qt_api v = VStr (display_name d).
Proof.
  intros Hres Hok facade.
  destruct (built_facade w q self d Hres Hok) as (_ & Hapi & _).
  fold facade in Hapi. split.
  - unfold USING_PYSIDE.
    rewrite (bind_ok _ _ _ _ _ _ (getattr_self_run _ _ _ Hapi)). simpl.
    unfold ret. f_equal. f_equal. apply bool_decide_ext. split; congruence.
  - intros v. apply reported_name_of_discriminant. exact Hapi.
Qed.

Lemma X7_witness :
  let w := demo_world [("PYTEST_QT_API", "PyQt4V2")] in
  let facade := out_self (set_qt_api w None ∅) in
  USING_PYSIDE facade = Outcome facade [] (Ok false)
  /\ forall v, out_result (get_versions w facade) = Ok v ->
       qt_api v = VStr "PyQt4".
Proof.
  intros w.
  apply (X7_report_follows_resolved_discriminant w None ∅ "pyqt4v2");
    vm_compute; reflexivity.
Defined.

(** ** Every attribute of a built facade *)

Lemma built_facade_sources w q self d :
  out_result (resolve_qt_api w q self) = Ok d ->
  out_result (set_qt_api w q self) = Ok tt ->
  let facade := out_self (set_qt_api w q self) in
  exists root core gui test,
    _root_modules !! d = Some root /\
    (attr_of w (VModule root) "QtCore" = Some core /\ facade !! "QtCore" = Some core) /\
    (attr_of w (VModule root) "QtGui" = Some gui /\ facade !! "QtGui" = Some gui) /\
    (attr_of w (VModule root) "QtTest" = Some test /\ facade !! "QtTest" = Some test) /\
    Forall (fun n => is_Some (facade !! n) /\ facade !! n = attr_of w core n)
      copied_from_core /\
    Forall (fun n => is_Some (facade !! n)) facade_attrs /\
    (if bool_decide (d = "pyqt5") then
       exists widgets,
         attr_of w (VModule root) "QtWidgets" = Some widgets /\
         facade !! "QApplication" = attr_of w widgets "QApplication" /\
         facade !! "QWidget" = attr_of w widgets "QWidget"
     else
       facade !! "QApplication" = attr_of w gui "QApplication" /\
       facade !! "QWidget" = attr_of w gui "QWidget").
Proof.
  intros Hres.
  change (wp (set_qt_api w q) self (fun o =>
    out_result o = Ok tt ->
    exists root core gui test,
      _root_modules !! d = Some root /\
      (attr_of w (VModule root) "QtCore" = Some core /\ out_self o !! "QtCore" = Some core) /\
      (attr_of w (VModule root) "QtGui" = Some gui /\ out_self o !! "QtGui" = Some gui) /\
      (attr_of w (VModule root) "QtTest" = Some test /\ out_self o !! "QtTest" = Some test) /\
      Forall (fun n => is_Some (out_self o !! n) /\ out_self o !! n = attr_of w core n)
        copied_from_core /\
      Forall (fun n => is_Some (out_self o !! n)) facade_attrs /\
      (if bool_decide (d = "pyqt5") then
         exists widgets,
           attr_of w (VModule root) "QtWidgets" = Some widgets /\
           out_self o !! "QApplication" = attr_of w widgets "QApplication" /\
           out_self o !! "QWidget" = attr_of w widgets "QWidget"
       else
         out_self o !! "QApplication" = attr_of w gui "QApplication" /\
         out_self o !! "QWidget" = attr_of w gui "QWidget"))).
  unfold set_qt_api. apply wp_bind, wp_resolve. rewrite Hres. wp_simpl.
  apply wp_bind, wp_setattr. wp_simpl.
  apply wp_bind, wp_getitem; [intros root Hroot | discriminate]. wp_simpl.
  pose proof (root_module_known _ _ Hroot) as Hd.
  known_api_cases Hd; vm_compute in Hroot; injection Hroot as <-.
  all: wp_tidy; repeat (wp_step; try discriminate).
  all: intros _; do 4 eexists.
  all: split; [vm_compute; reflexivity |].
  all: unfold copied_from_core, facade_attrs; map_lookups.
  all: repeat match goal with
       | |- _ /\ _ => split
       | |- Forall _ (_ :: _) => constructor
       | |- Forall _ [] => constructor
       | |- is_Some (_ !! _) => map_lookups; eexists; reflexivity
       | |- exists _, _ => eexists
       | |- _ = _ => map_lookups; first [eassumption | reflexivity | symmetry; eassumption]
       end.
Qed.

(** X8. A [set_qt_api] that returns has resolved one of pyside, pyqt4,
    pyqt4v2, pyqt5 and stored it, whatever the override was, and has
    assigned every one of the twenty-one facade attributes. *)
Theorem X8_built_facade_is_complete w q self :
  out_result (set_qt_api w q self) = Ok tt ->
  let facade := out_self (set_qt_api w q self) in
  exists d,
    d ∈ known_apis /\
    out_result (resolve_qt_api w q self) = Ok d /\
    facade !! "pytest_qt_api" = Some (VStr d) /\
    Forall (fun n => is_Some (facade !! n)) facade_attrs.
Proof.
  intros Hok facade.
  destruct (out_result (resolve_qt_api w q self)) as [d|e] eqn:Hres.
  - exists d.
    destruct (built_facade w q self d Hres Hok) as (Hd & Hapi & _).
    destruct (built_facade_sources w q self d Hres Hok)
      as (root & core & gui & test & _ & _ & _ & _ & _ & Hall & _).
    auto.
  - exfalso. unfold set_qt_api in Hok. rewrite bind_result, Hres in Hok.
    discriminate.
Qed.

Lemma X8_witness :
  let facade := out_self (set_qt_api (demo_world []) None ∅) in
  exists d,
    d ∈ known_apis /\
    out_result (resolve_qt_api (demo_world []) None ∅) = Ok d /\
    facade !! "pytest_qt_api" = Some (VStr d) /\
    Forall (fun n => is_Some (facade !! n)) facade_attrs.
Proof.
  apply (X8_built_facade_is_complete (demo_world []) None ∅).
  vm_compute. reflexivity.
Defined.

(** X9. In a built facade the three module attributes are the submodules
    QtCore, QtGui and QtTest of the root package of the discriminant
    (PyQt4 for both pyqt4 and pyqt4v2); the ten logging names and
    constants are the attributes of the same names of the core module;
    [QApplication] and [QWidget] come from QtWidgets for pyqt5 and from
    QtGui for the others. *)
Theorem X9_facade_sources w q self d :
  out_result (resolve_qt_api w q self) = Ok d ->
  out_result (set_qt_api w q self) = Ok tt ->
  let facade := out_self (set_qt_api w q self) in
  exists root core gui test,
    _root_modules !! d = Some root /\
    (attr_of w (VModule root) "QtCore" = Some core /\ facade !! "QtCore" = Some core) /\
    (attr_of w (VModule root) "QtGui" = Some gui /\ facade !! "QtGui" = Some gui) /\
    (attr_of w (VModule root) "QtTest" = Some test /\ facade !! "QtTest" = Some test) /\
    Forall (fun n => facade !! n = attr_of w core n) copied_from_core /\
    (if bool_decide (d = "pyqt5") then
       exists widgets,
         attr_of w (VModule root) "QtWidgets" = Some widgets /\
         facade !! "QApplication" = attr_of w widgets "QApplication" /\
         facade !! "QWidget" = attr_of w widgets "QWidget"
     else
       facade !! "QApplication" = attr_of w gui "QApplication" /\
       facade !! "QWidget" = attr_of w gui "QWidget").
Proof.
  intros Hres Hok facade.
  destruct (built_facade_sources w q self d Hres Hok)
    as (root & core & gui & test & Hroot & Hcore & Hgui & Htest & Hcopy & _ & Happ).
  exists root, core, gui, test.
  repeat (split; [assumption |]). split; [| exact Happ].
  eapply Forall_impl; [exact Hcopy | intros n [_ Hn]; exact Hn].
Qed.

Lemma X9_witness :
  let w := demo_world [] in
  let facade := out_self (set_qt_api w (Some "pyqt4v2") ∅) in
  facade !! "QtCore" = Some (VModule "PyQt4.QtCore")
  /\ facade !! "QApplication" = Some (VObj "PyQt4.QtGui.QApplication").
Proof.
  intros w facade.
  destruct (X9_facade_sources w (Some "pyqt4v2") ∅ "pyqt4v2")
    as (root & core & gui & test & Hroot & [Hc Hcore] & [Hg Hgui] & _ & _ & Happ);
    [vm_compute; reflexivity .. |].
  vm_compute in Hroot. injection Hroot as <-.
  vm_compute in Hc. injection Hc as <-.
  vm_compute in Hg. injection Hg as <-.
  split; [exact Hcore |].
  destruct Happ as [Happ _]. exact Happ.
Defined.

(** ** Failures while loading *)

Lemma resolve_run w q self :
  resolve_qt_api w q self =
    Outcome self (out_trace (resolve_qt_api w q self))
      (out_result (resolve_qt_api w q self)).
Proof.
  rewrite (outcome_eta (resolve_qt_api w q self)) at 1.
  rewrite resolve_self. reflexivity.
Qed.

(** X10. When the root package of the resolved discriminant cannot be
    imported, the [ImportError] of the first import reaches the caller
    unchanged; by then only [pytest_qt_api] has been assigned. *)
Theorem X10_missing_root_package_propagates w q self d root :
  out_result (resolve_qt_api w q self) = Ok d ->
  d <> "pyqt4v2" ->
  _root_modules !! d = Some root ->
  importable w root = false ->
  set_qt_api w q self =
    Outcome (<["pytest_qt_api" := VStr d]> self)
      (out_trace (resolve_qt_api w q self) ++ [EvImport root ["QtCore"]])
      (Raise (ImportError root)).
Proof.
  intros Hres Hv2 Hroot Himp.
  change (wp (set_qt_api w q) self (fun o =>
    o = Outcome (<["pytest_qt_api" := VStr d]> self)
          (out_trace (resolve_qt_api w q self) ++ [EvImport root ["QtCore"]])
          (Raise (ImportError root)))).
  unfold set_qt_api. apply wp_bind, wp_resolve. rewrite Hres. wp_simpl.
  apply wp_bind, wp_setattr. wp_simpl.
  apply wp_bind, wp_getitem; [intros r Hr | congruence].
  rewrite Hroot in Hr. injection Hr as <-. wp_simpl.
  rewrite (bool_decide_eq_false_2 (d = "pyqt4v2")) by exact Hv2.
  apply wp_bind, wp_ret. wp_simpl.
  unfold _import_module. apply wp_bind, wp_bind, wp_import; [congruence | intros _].
  wp_simpl. reflexivity.
Qed.

Lemma X10_witness :
  set_qt_api (World ∅ ∅ ∅ (fun _ _ => true)) (Some "pyqt5") ∅ =
    Outcome (<["pytest_qt_api" := VStr "pyqt5"]> ∅)
      [EvImport "PyQt5" ["QtCore"]] (Raise (ImportError "PyQt5")).
Proof.
  refine (eq_trans
            (X10_missing_root_package_propagates
               (World ∅ ∅ ∅ (fun _ _ => true)) (Some "pyqt5") ∅ "pyqt5" "PyQt5"
               _ _ _ _) _).
  - vm_compute. reflexivity.
  - discriminate.
  - vm_compute. reflexivity.
  - vm_compute. reflexivity.
  - vm_compute. reflexivity.
Defined.

Lemma v2_run_guarded w q self :
  out_result (resolve_qt_api w q self) = Ok "pyqt4v2" ->
  imports_from "PyQt4" (out_trace (set_qt_api w q self)) = true ->
  importable w "sip" = true
  /\ Forall (fun n => sip_accepts w n 2 = true) v2_types.
Proof.
  intros Hres. apply resolve_v2_silent in Hres.
  change (wp (set_qt_api w q) self (fun o =>
    imports_from "PyQt4" (out_trace o) = true ->
    importable w "sip" = true
    /\ Forall (fun n => sip_accepts w n 2 = true) v2_types)).
  unfold set_qt_api. apply wp_bind. unfold wp at 1. rewrite Hres. wp_tidy.
  wp_step. wp_step. wp_step.
  apply wp_getitem; [intros root Hroot | intros Hroot; vm_compute in Hroot; discriminate].
  vm_compute in Hroot; injection Hroot as <-. wp_tidy.
  repeat wp_step.
  all: intros Hfrom; try (vm_compute in Hfrom; discriminate).
  all: split; [assumption | unfold v2_types; repeat constructor; assumption].
Qed.

(** X11. For pyqt4v2 nothing is imported from PyQt4 unless sip was
    imported and accepted version 2 for all seven types; when sip cannot
    be imported, [set_qt_api] raises that [ImportError] before any
    [sip.setapi] call, with only [pytest_qt_api] assigned. *)
Theorem X11_pyqt4v2_needs_sip w q self :
  out_result (resolve_qt_api w q self) = Ok "pyqt4v2" ->
  (forall fromlist,
     EvImport "PyQt4" fromlist ∈ out_trace (set_qt_api w q self) ->
     importable w "sip" = true
     /\ Forall (fun n => sip_accepts w n 2 = true) v2_types)
  /\ (importable w "sip" = false ->
      set_qt_api w q self =
        Outcome (<["pytest_qt_api" := VStr "pyqt4v2"]> self)
          [EvImport "sip" []] (Raise (ImportError "sip"))).
Proof.
  intros Hres. split.
  - intros fromlist Hin. apply (v2_run_guarded w q self Hres).
    unfold imports_from. apply existsb_exists.
    exists (EvImport "PyQt4" fromlist).
    split; [apply list_elem_of_In; exact Hin | reflexivity].
  - intros Hsip. apply resolve_v2_silent in Hres.
    change (wp (set_qt_api w q) self (fun o =>
      o = Outcome (<["pytest_qt_api" := VStr "pyqt4v2"]> self)
            [EvImport "sip" []] (Raise (ImportError "sip")))).
    unfold set_qt_api. apply wp_bind. unfold wp at 1. rewrite Hres. wp_tidy.
    wp_step. wp_step. wp_step.
    apply wp_getitem; [intros root Hroot | intros Hroot; vm_compute in Hroot; discriminate].
    vm_compute in Hroot; injection Hroot as <-. wp_tidy.
    apply wp_bind, wp_bind, wp_import; [congruence | intros _].
    wp_simpl. reflexivity.
Qed.

Lemma X11_witness :
  set_qt_api (World (<["PYTEST_QT_API" := "pyqt4v2"]> ∅) (<["PyQt4" := ∅]> ∅) ∅
                (fun _ _ => true)) None ∅ =
    Outcome (<["pytest_qt_api" := VStr "pyqt4v2"]> ∅)
      [EvImport "sip" []] (Raise (ImportError "sip")).
Proof.
  apply (X11_pyqt4v2_needs_sip
           (World (<["PYTEST_QT_API" := "pyqt4v2"]> ∅) (<["PyQt4" := ∅]> ∅) ∅
              (fun _ _ => true)) None ∅).
  - vm_compute. reflexivity.
  - vm_compute. reflexivity.
Defined.

(** X12. A discriminant found by auto-detection is pyside, pyqt4 or
    pyqt5, never pyqt4v2, and its root package is one that can be
    imported. *)
Theorem X12_auto_detected_backend_is_importable w q self d :
  ~ force_flag_set w ->
  truthy q = false ->
  environ w !! "PYTEST_QT_API" = None ->
  out_result (resolve_qt_api w q self) = Ok d ->
  d ∈ ["pyside"; "pyqt4"; "pyqt5"]
  /\ exists root, _root_modules !! d = Some root /\ importable w root = true.
Proof.
  intros Hforce Hq Hv.
  rewrite resolve_not_forced by exact Hforce. rewrite Hq, Hv. simpl.
  rewrite guess_qt_api_run. unfold first_detectable, candidates. simpl.
  destruct (importable w "PySide") eqn:H1;
    [| destruct (importable w "PyQt4") eqn:H2;
       [| destruct (importable w "PyQt5") eqn:H3]];
    simpl; intros Hd; try discriminate; injection Hd as <-.
  - split; [repeat constructor | exists "PySide"; split; [reflexivity | exact H1]].
  - split; [repeat constructor | exists "PyQt4"; split; [reflexivity | exact H2]].
  - split; [repeat constructor | exists "PyQt5"; split; [reflexivity | exact H3]].
Qed.

Lemma X12_witness :
  "pyqt4" ∈ ["pyside"; "pyqt4"; "pyqt5"]
  /\ exists root,
       _root_modules !! "pyqt4" = Some root
       /\ importable (World ∅ (<["PyQt4" := ∅]> (<["PyQt5" := ∅]> ∅)) ∅ (fun _ _ => true))
            root = true.
Proof.
  apply (X12_auto_detected_backend_is_importable
           (World ∅ (<["PyQt4" := ∅]> (<["PyQt5" := ∅]> ∅)) ∅ (fun _ _ => true))
           None ∅ "pyqt4").
  - unfold force_flag_set. vm_compute. discriminate.
  - reflexivity.
  - reflexivity.
  - vm_compute. reflexivity.
Defined.

(** X13. A [$PYTEST_QT_API] that is set but empty is not treated as
    unset: with no force flag and no override it is rejected as an invalid
    value and no probe is made. *)
Theorem X13_empty_configured_value_is_rejected w q self :
  ~ force_flag_set w ->
  truthy q = false ->
  environ w !! "PYTEST_QT_API" = Some EmptyString ->
  set_qt_api w q self =
    Outcome self [] (Raise (RuntimeError "Invalid value for $PYTEST_QT_API: ")).
Proof.
  intros Hforce Hq Hv. unfold set_qt_api.
  apply bind_raise. rewrite resolve_not_forced by exact Hforce.
  rewrite Hq, Hv. reflexivity.
Qed.

Lemma X13_witness :
  set_qt_api (demo_world [("PYTEST_QT_API", EmptyString)]) None ∅ =
    Outcome ∅ [] (Raise (RuntimeError "Invalid value for $PYTEST_QT_API: ")).
Proof.
  apply (X13_empty_configured_value_is_rejected
           (demo_world [("PYTEST_QT_API", EmptyString)]) None ∅).
  - unfold force_flag_set. vm_compute. discriminate.
  - reflexivity.
  - reflexivity.
Defined.

(** ** Which packages are imported *)

Lemma resolve_imports w q self n fromlist :
  EvImport n fromlist ∈ out_trace (resolve_qt_api w q self) ->
  importable w n = true ->
  exists d,
    out_result (resolve_qt_api w q self) = Ok d /\ _root_modules !! d = Some n.
Proof.
  unfold resolve_qt_api.
  repeat first [ case_bool_decide | case_match ]; simpl;
    try (intros Hin; apply elem_of_nil in Hin; destruct Hin).
  all: rewrite guess_qt_api_run; unfold first_detectable, candidates; simpl.
  all: destruct (importable w "PySide") eqn:Hside;
    [| destruct (importable w "PyQt4") eqn:Hqt4;
       [| destruct (importable w "PyQt5") eqn:Hqt5]]; simpl.
  all: intros Hin Himp;
    repeat (apply elem_of_cons in Hin as [Hin | Hin];
            [injection Hin as -> _; try congruence |]);
    try (apply elem_of_nil in Hin; destruct Hin).
  all: eexists; split; reflexivity.
Qed.

Lemma load_imports w q self d :
  out_result (resolve_qt_api w q self) = Ok d ->
  exists rest,
    out_trace (set_qt_api w q self) = out_trace (resolve_qt_api w q self) ++ rest
    /\ (rest = [] \/
        exists root,
          _root_modules !! d = Some root
          /\ imports_within root (bool_decide (d = "pyqt4v2")) rest = true).
Proof.
  intros Hres.
  change (wp (set_qt_api w q) self (fun o =>
    exists rest,
      out_trace o = out_trace (resolve_qt_api w q self) ++ rest
      /\ (rest = [] \/
          exists root,
            _root_modules !! d = Some root
            /\ imports_within root (bool_decide (d = "pyqt4v2")) rest = true))).
  unfold set_qt_api. apply wp_bind, wp_resolve. rewrite Hres. wp_simpl.
  apply wp_bind, wp_setattr. wp_simpl.
  apply wp_bind, wp_getitem; [intros root Hroot | intros _]; wp_simpl;
    [| exists []; split; [reflexivity | left; reflexivity]].
  pose proof (root_module_known _ _ Hroot) as Hd.
  known_api_cases Hd; vm_compute in Hroot; injection Hroot as <-.
  all: wp_tidy; repeat wp_step.
  all: eexists; split; [reflexivity | right].
  all: eexists; split; vm_compute; reflexivity.
Qed.

(** X14. Every package that [set_qt_api] imports with success is the root
    package of the resolved discriminant or, for pyqt4v2, sip: the probes
    stop at the first binding found and no other binding is loaded. *)
Theorem X14_only_resolved_backend_is_imported w q self n fromlist :
  EvImport n fromlist ∈ out_trace (set_qt_api w q self) ->
  importable w n = true ->
  exists d,
    out_result (resolve_qt_api w q self) = Ok d
    /\ (_root_modules !! d = Some n \/ (d = "pyqt4v2" /\ n = "sip")).
Proof.
  intros Hin Himp.
  destruct (out_result (resolve_qt_api w q self)) as [d|e] eqn:Hres.
  - destruct (load_imports w q self d Hres) as (rest & Htr & Hrest).
    rewrite Htr in Hin. apply elem_of_app in Hin as [Hin | Hin].
    + destruct (resolve_imports w q self n fromlist Hin Himp) as (d' & Hd' & Hroot).
      exists d'. split; [congruence | left; exact Hroot].
    + exists d. split; [reflexivity |].
      destruct Hrest as [-> | (root & Hroot & Hwithin)];
        [apply elem_of_nil in Hin; destruct Hin |].
      unfold imports_within in Hwithin.
      rewrite forallb_forall in Hwithin.
      apply list_elem_of_In in Hin. specialize (Hwithin _ Hin). simpl in Hwithin.
      apply orb_true_iff in Hwithin as [Hn | Hn].
      * apply bool_decide_eq_true_1 in Hn. subst n. left. exact Hroot.
      * apply andb_true_iff in Hn as [Hv2 Hn].
        apply bool_decide_eq_true_1 in Hv2, Hn. right. auto.
  - exfalso.
    assert (Htr : out_trace (set_qt_api w q self) =
                  out_trace (resolve_qt_api w q self)).
    { unfold set_qt_api. rewrite bind_trace, Hres. apply app_nil_r. }
    rewrite Htr in Hin.
    destruct (resolve_imports w q self n fromlist Hin Himp) as (d' & Hd' & _).
    congruence.
Qed.

Lemma X14_witness :
  exists d,
    out_result (resolve_qt_api (demo_world []) (Some "pyqt5") ∅) = Ok d
    /\ (_root_modules !! d = Some "PyQt5" \/ (d = "pyqt4v2" /\ "PyQt5" = "sip")).
Proof.
  apply (X14_only_resolved_backend_is_imported
           (demo_world []) (Some "pyqt5") ∅ "PyQt5" ["QtWidgets"]).
  - apply (bool_decide_eq_true_1
             (EvImport "PyQt5" ["QtWidgets"]
                ∈ out_trace (set_qt_api (demo_world []) (Some "pyqt5") ∅))).
    vm_compute. reflexivity.
  - vm_compute. reflexivity.
Defined.

(** ** The stand-in of the documentation build *)

Lemma plain_name_not_special name :
  String.prefix "__" name = false -> name ∉ special_names.
Proof.
  intros Hplain Hin. unfold special_names in Hin.
  repeat (apply elem_of_cons in Hin as [-> | Hin]);
    try (vm_compute in Hplain; discriminate).
  apply elem_of_nil in Hin. exact Hin.
Qed.

Lemma Mock_getattr_plain name :
  name ∉ special_names -> Mock__getattr__ name = MMock.
Proof.
  unfold special_names, Mock__getattr__. intros Hname.
  repeat (apply not_elem_of_cons in Hname as [? Hname]).
  assert (Hfile : bool_decide (name ∈ ["__file__"; "__path__"]) = false).
  { apply bool_decide_eq_false_2. intros Hin.
    repeat (apply elem_of_cons in Hin as [-> | Hin]); try congruence;
      try (apply elem_of_nil in Hin; exact Hin). }
  assert (Hqual : bool_decide (name ∈ ["__name__"; "__qualname__"]) = false).
  { apply bool_decide_eq_false_2. intros Hin.
    repeat (apply elem_of_cons in Hin as [-> | Hin]); try congruence;
      try (apply elem_of_nil in Hin; exact Hin). }
  assert (Hann : bool_decide (name = "__annotations__") = false)
    by (apply bool_decide_eq_false_2; assumption).
  rewrite Hfile, Hqual, Hann. reflexivity.
Qed.

(** X15. Any chain of calls and of accesses to attributes whose names do
    not begin with two underscores, started on a [Mock], ends on a [Mock]
    again; a following access to [__file__], [__path__], [__name__],
    [__qualname__] or [__annotations__] yields a string or the empty dict,
    not a [Mock]. *)
Theorem X15_mock_absorbs_plain_uses us :
  Forall plain_use us ->
  mock_uses MMock us = Some MMock
  /\ forall name, name ∈ special_names ->
       exists v, mock_uses MMock (us ++ [Attr name]) = Some v /\ v <> MMock.
Proof.
  intros Hus.
  assert (Habsorb : forall us', Forall plain_use us' ->
            forall tl, mock_uses MMock (us' ++ tl) = mock_uses MMock tl).
  { induction 1 as [|u us' Hu _ IH]; intros tl; [reflexivity |].
    simpl. destruct u as [name|]; simpl.
    - simpl in Hu. unfold reaches_getattr. rewrite Hu, orb_true_r.
      rewrite (Mock_getattr_plain name (plain_name_not_special name Hu)).
      apply IH.
    - apply IH. }
  split.
  - rewrite <- (app_nil_r us). apply (Habsorb us Hus []).
  - intros name Hname. rewrite (Habsorb us Hus).
    unfold special_names in Hname.
    repeat (apply elem_of_cons in Hname as [-> | Hname]);
      try (eexists; split; [vm_compute; reflexivity | discriminate]).
    apply elem_of_nil in Hname. destruct Hname.
Qed.

Lemma X15_witness :
  mock_uses MMock [Attr "QtCore"; Attr "Qt"; Attr "Key_A"; Call; Attr "_private"]
  = Some MMock.
Proof.
  apply (X15_mock_absorbs_plain_uses
           [Attr "QtCore"; Attr "Qt"; Attr "Key_A"; Call; Attr "_private"]).
  repeat constructor.
Defined.

(** ** A facade left half built *)

Lemma unknown_override_run w s self :
  ~ force_flag_set w ->
  s <> EmptyString ->
  s ∉ known_apis ->
  set_qt_api w (Some s) self =
    Outcome (<["pytest_qt_api" := VStr s]> self) [] (Raise (KeyError s)).
Proof.
  intros Hforce Hs Hunknown.
  change (wp (set_qt_api w (Some s)) self (fun o =>
    o = Outcome (<["pytest_qt_api" := VStr s]> self) [] (Raise (KeyError s)))).
  unfold set_qt_api. apply wp_bind. unfold wp at 1.
  rewrite resolve_not_forced by exact Hforce. simpl.
  rewrite bool_decide_eq_false_2 by exact Hs. simpl.
  apply wp_bind, wp_setattr. wp_simpl.
  apply wp_bind, wp_getitem;
    [intros r Hr; rewrite root_module_unknown in Hr by exact Hunknown; discriminate |].
  intros _. wp_simpl. reflexivity.
Qed.

(** X16. After [set_qt_api] has rejected an unknown explicit override on
    a fresh instance, the instance keeps that override as its
    discriminant: [USING_PYSIDE] answers false, and [get_versions] takes
    the PyQt branch and raises [AttributeError] for the missing [QtCore]. *)
Theorem X16_rejected_override_is_kept w s :
  ~ force_flag_set w ->
  s <> EmptyString ->
  s ∉ known_apis ->
  let facade := out_self (set_qt_api w (Some s) ∅) in
  facade !! "pytest_qt_api" = Some (VStr s)
  /\ USING_PYSIDE facade = Outcome facade [] (Ok false)
  /\ get_versions w facade = Outcome facade [] (Raise (AttributeError "QtCore")).
Proof.
  intros Hforce Hs Hunknown facade. subst facade.
  rewrite (unknown_override_run w s ∅ Hforce Hs Hunknown). simpl.
  assert (Hapi : (<["pytest_qt_api" := VStr s]> ∅ : gmap string value)
                   !! "pytest_qt_api" = Some (VStr s))
    by apply lookup_insert_eq.
  assert (Hcore : (<["pytest_qt_api" := VStr s]> ∅ : gmap string value)
                    !! "QtCore" = None)
    by (rewrite lookup_insert_ne by discriminate; apply lookup_empty).
  assert (Hside : bool_decide (VStr s = VStr "pyside") = false).
  { apply bool_decide_eq_false_2. intros Heq. injection Heq as ->.
    apply Hunknown. unfold known_apis. repeat constructor. }
  split; [exact Hapi |]. split.
  - unfold USING_PYSIDE.
    rewrite (bind_ok _ _ _ _ _ _ (getattr_self_run _ _ _ Hapi)). simpl.
    rewrite Hside. reflexivity.
  - unfold get_versions.
    rewrite (bind_ok _ _ _ _ _ _ (getattr_self_run _ _ _ Hapi)).
    rewrite Hside.
    rewrite (bind_ok _ _ _ _ _ _ (getattr_self_run _ _ _ Hapi)).
    erewrite bind_raise; [reflexivity |].
    unfold getattr_self. rewrite Hcore. reflexivity.
Qed.

Lemma X16_witness :
  let facade := out_self (set_qt_api (demo_world []) (Some "PySide") ∅) in
  facade !! "pytest_qt_api" = Some (VStr "PySide")
  /\ USING_PYSIDE facade = Outcome facade [] (Ok false)
  /\ get_versions (demo_world []) facade =
       Outcome facade [] (Raise (AttributeError "QtCore")).
Proof.
  apply (X16_rejected_override_is_kept (demo_world []) "PySide").
  - unfold force_flag_set. vm_compute. discriminate.
  - discriminate.
  - apply (bool_decide_eq_false_1 ("PySide" ∈ known_apis)). vm_compute. reflexivity.
Defined.
